(** * StellarGraph: continuous-integration workflow and demo notebooks

    The material under verification is
    - the GitHub Actions workflow "Continuous Integration" (YAML),
    - four demo notebooks (loading-numpy, loading-networkx,
      load-cora-into-neo4j, gcn-supervised-graph-classification),
    - and, for the calls the notebooks make, a model of the library's
      [IndexedArray] and [StellarGraph] constructors.

    The workflow is embedded as a record, with the platform's semantics of
    triggers, matrix expansion, expression rendering and step conditions
    written as functions over it.  The notebooks are embedded as the list of
    their code cells with the source text verbatim; what a cell calls or
    imports is computed from that text. *)

From Stdlib Require Import Ascii String List ZArith Lia Bool.
From Stdlib Require Import DecimalString DecimalNat DecimalZ.
From stdpp Require Import base list sorting gmap strings.

(** ** Text helpers *)

Module Text.

(** The double-quote character, and a double-quoted literal. *)
Definition dq : string := String (ascii_of_nat 34) EmptyString.
Definition q (s : string) : string := dq +:+ s +:+ dq.

Definition nl : ascii := ascii_of_nat 10.

Definition ascii_eqb (a b : ascii) : bool := Ascii.eqb a b.

Fixpoint starts_with (p s : string) : bool :=
  match p with
  | EmptyString => true
  | String a p' =>
      match s with
      | EmptyString => false
      | String b s' => ascii_eqb a b && starts_with p' s'
      end
  end.

Fixpoint contains (p s : string) : bool :=
  starts_with p s ||
  match s with
  | EmptyString => false
  | String _ s' => contains p s'
  end.

Fixpoint drop (n : nat) (s : string) : string :=
  match n, s with
  | O, _ => s
  | S k, EmptyString => EmptyString
  | S k, String _ s' => drop k s'
  end.

(** [replace_from p r s skip] rewrites every occurrence of the non-empty
    pattern [p] in [s] into [r], left to right; [skip] counts the characters
    of a matched occurrence still to be passed over. *)
Fixpoint replace_from (p r s : string) (skip : nat) : string :=
  match s with
  | EmptyString => EmptyString
  | String c s' =>
      match skip with
      | S k => replace_from p r s' k
      | O =>
          if starts_with p s
          then r +:+ replace_from p r s' (String.length p - 1)
          else String c (replace_from p r s' 0)
      end
  end.

Definition replace (p r s : string) : string := replace_from p r s 0.

Definition is_space (c : ascii) : bool :=
  ascii_eqb c " " || ascii_eqb c nl || ascii_eqb c (ascii_of_nat 9).

Fixpoint ltrim (s : string) : string :=
  match s with
  | String c s' => if is_space c then ltrim s' else s
  | EmptyString => EmptyString
  end.

Definition is_ident_char (c : ascii) : bool :=
  let n := nat_of_ascii c in
  (Nat.leb 97 n && Nat.leb n 122) || (Nat.leb 65 n && Nat.leb n 90)
  || (Nat.leb 48 n && Nat.leb n 57) || Nat.eqb n 95.

Definition unlines (ls : list string) : string :=
  fold_right (fun l acc => l +:+ String nl acc) EmptyString ls.

Definition mem (s : string) (l : list string) : bool :=
  existsb (String.eqb s) l.

End Text.

Import Text.

(** ** The workflow file *)

Module Workflow.

(** A step of a job.  [cond] is the step's [if:] key: the file has either no
    [if:] (the platform's implicit [success()]) or
    [if: ${{ always() }}]. *)
Inductive condition := Success | Always.

Record step := Step {
  step_name : option string;
  step_id : option string;
  uses : option string;
  with_ : list (string * string);
  run : list string;
  cond : condition
}.

(** [strategy.matrix]: the named axes, and the [exclude:] entries, each a
    partial assignment of axes. *)
Record strategy := Strategy {
  matrix : list (string * list string);
  exclude : list (list (string * string))
}.

Record job := Job {
  job_id : string;
  runs_on : string;
  job_strategy : strategy;
  env : list (string * string);
  steps : list step
}.

(** The [on:] key: for each event the optional [branches:] filter. *)
Record trigger := Trigger {
  event_name : string;
  branches : option (list string)
}.

Record workflow := WorkflowFile {
  name : string;
  on : list trigger;
  jobs : list job
}.

Definition no_strategy : strategy := Strategy [] [].

(** *** Job [build] *)

Definition build_steps : list step :=
  [ Step None None (Some "actions/checkout@v2") [] [] Success;
    Step (Some "Setup Python") None (Some "actions/setup-python@v2")
      [("python-version", "${{ matrix.python-version }}")] [] Success;
    Step (Some "Restore cache") None (Some "actions/cache@v2")
      [("path", "~/.cache/pip");
       ("key", "${{ runner.os }}-${{ matrix.python-version }}-pip-${{ hashFiles('setup.py') }}");
       ("restore-keys", "${{ runner.os }}-${{ matrix.python-version }}-pip-" +:+ String nl EmptyString)] [] Success;
    Step (Some "Install dependencies") None None []
      [ "python -m pip install --upgrade pip";
        "pip install .[test,demos]" ] Success;
    Step (Some "Run pytest tests") None None []
      [ "# benchmarks on shared infrastructure like the CI machines are usually unreliable (high";
        "# variance), so there's no point spending too much time, hence --benchmark-disable which";
        "# just runs them once (as a test)";
        "py.test -ra tests/ --doctest-modules \";
        "    --cov=stellargraph --cov-report=xml \";
        "    -p no:cacheprovider --junitxml=" +:+ q "pytest-results-${{ matrix.python-version }}.xml" +:+ " \";
        "    --benchmark-disable" ] Success;
    Step (Some "Upload pytest test results") None (Some "actions/upload-artifact@v1")
      [("name", "pytest-results-${{ matrix.python-version }}");
       ("path", "pytest-results-${{ matrix.python-version }}.xml")] [] Always;
    Step (Some "Upload coverage to Codecov") None (Some "codecov/codecov-action@v1")
      [("env_vars", "OS,PYTHON")] [] Success ].

Definition build : job :=
  Job "build" "ubuntu-latest"
    (Strategy [("python-version", ["3.6"; "3.7"; "3.8"])] [])
    [] build_steps.

(** *** Job [notebooks] *)

(** [strategy.matrix.notebook], below "MARKER: list of all notebooks". *)
Definition all_notebooks : list string :=
  [ "demos/basics/loading-networkx.ipynb";
    "demos/basics/loading-numpy.ipynb";
    "demos/basics/loading-pandas.ipynb";
    "demos/basics/loading-saving-neo4j.ipynb";
    "demos/calibration/calibration-link-prediction.ipynb";
    "demos/calibration/calibration-node-classification.ipynb";
    "demos/community_detection/attacks_clustering_analysis.ipynb";
    "demos/connector/neo4j/cluster-gcn-on-cora-neo4j-example.ipynb";
    "demos/connector/neo4j/directed-graphsage-on-cora-neo4j-example.ipynb";
    "demos/connector/neo4j/load-cora-into-neo4j.ipynb";
    "demos/connector/neo4j/undirected-graphsage-on-cora-neo4j-example.ipynb";
    "demos/embeddings/attri2vec-embeddings.ipynb";
    "demos/embeddings/deep-graph-infomax-embeddings.ipynb";
    "demos/embeddings/gcn-unsupervised-graph-embeddings.ipynb";
    "demos/embeddings/graphsage-unsupervised-sampler-embeddings.ipynb";
    "demos/embeddings/graphwave-embeddings.ipynb";
    "demos/embeddings/keras-node2vec-embeddings.ipynb";
    "demos/embeddings/metapath2vec-embeddings.ipynb";
    "demos/embeddings/node2vec-embeddings.ipynb";
    "demos/embeddings/watch-your-step-embeddings.ipynb";
    "demos/ensembles/ensemble-link-prediction-example.ipynb";
    "demos/ensembles/ensemble-node-classification-example.ipynb";
    "demos/graph-classification/dgcnn-graph-classification.ipynb";
    "demos/graph-classification/gcn-supervised-graph-classification.ipynb";
    "demos/interpretability/gat-node-link-importance.ipynb";
    "demos/interpretability/gcn-node-link-importance.ipynb";
    "demos/interpretability/gcn-sparse-node-link-importance.ipynb";
    "demos/interpretability/hateful-twitters-interpretability.ipynb";
    "demos/link-prediction/attri2vec-link-prediction.ipynb";
    "demos/link-prediction/complex-link-prediction.ipynb";
    "demos/link-prediction/ctdne-link-prediction.ipynb";
    "demos/link-prediction/distmult-link-prediction.ipynb";
    "demos/link-prediction/gcn-link-prediction.ipynb";
    "demos/link-prediction/graphsage-link-prediction.ipynb";
    "demos/link-prediction/hinsage-link-prediction.ipynb";
    "demos/link-prediction/homogeneous-comparison-link-prediction.ipynb";
    "demos/link-prediction/metapath2vec-link-prediction.ipynb";
    "demos/link-prediction/node2vec-link-prediction.ipynb";
    "demos/node-classification/attri2vec-node-classification.ipynb";
    "demos/node-classification/cluster-gcn-node-classification.ipynb";
    "demos/node-classification/directed-graphsage-node-classification.ipynb";
    "demos/node-classification/gat-node-classification.ipynb";
    "demos/node-classification/gcn-deep-graph-infomax-fine-tuning-node-classification.ipynb";
    "demos/node-classification/gcn-node-classification.ipynb";
    "demos/node-classification/gcn/gcn-cora-node-classification-example.ipynb";
    "demos/node-classification/graphsage-inductive-node-classification.ipynb";
    "demos/node-classification/graphsage-node-classification.ipynb";
    "demos/node-classification/keras-node2vec-node-classification.ipynb";
    "demos/node-classification/node2vec-node-classification.ipynb";
    "demos/node-classification/node2vec-weighted-node-classification.ipynb";
    "demos/node-classification/ppnp-node-classification.ipynb";
    "demos/node-classification/rgcn-node-classification.ipynb";
    "demos/node-classification/sgc-node-classification.ipynb";
    "demos/time-series/gcn-lstm-time-series.ipynb";
    "demos/use-cases/hateful-twitters.ipynb";
    "demos/zzz-internal-developers/graph-resource-usage.ipynb" ].

(** [exclude:], first group, under the comment
    "notebooks that require Neo4j, and are run separately". *)
Definition excluded_neo4j : list string :=
  [ "demos/connector/neo4j/cluster-gcn-on-cora-neo4j-example.ipynb";
    "demos/connector/neo4j/directed-graphsage-on-cora-neo4j-example.ipynb";
    "demos/connector/neo4j/load-cora-into-neo4j.ipynb";
    "demos/connector/neo4j/undirected-graphsage-on-cora-neo4j-example.ipynb";
    "demos/basics/loading-saving-neo4j.ipynb" ].

(** [exclude:], second group, under the comment
    "notebooks that don't yet run on CI" (FIXME #818, FIXME #819). *)
Definition excluded_not_on_ci : list string :=
  [ "demos/community_detection/attacks_clustering_analysis.ipynb";
    "demos/interpretability/gat-node-link-importance.ipynb";
    "demos/interpretability/gcn-node-link-importance.ipynb";
    "demos/interpretability/gcn-sparse-node-link-importance.ipynb";
    "demos/interpretability/hateful-twitters-interpretability.ipynb";
    "demos/link-prediction/attri2vec-link-prediction.ipynb";
    "demos/node-classification/rgcn-node-classification.ipynb";
    "demos/use-cases/hateful-twitters.ipynb" ].

Definition exclude_entry (nb : string) : list (string * string) :=
  [("notebook", nb)].

Definition notebooks_steps : list step :=
  [ Step None None (Some "actions/checkout@v2") [] [] Success;
    Step (Some "Setup Python") None (Some "actions/setup-python@v2")
      [("python-version", "${{ env.PYTHON_VERSION }}")] [] Success;
    Step (Some "Restore cache") None (Some "actions/cache@v2")
      [("path", "~/.cache/pip");
       ("key", "${{ runner.os }}-${{ env.PYTHON_VERSION }}-pip-${{ hashFiles('setup.py') }}");
       ("restore-keys", "${{ runner.os }}-${{ env.PYTHON_VERSION }}-pip-" +:+ String nl EmptyString)] [] Success;
    Step (Some "Install dependencies") None None []
      [ "python -m pip install --upgrade pip";
        "pip install .[test,demos]" ] Success;
    Step (Some "Run notebook") (Some "run_notebook") None []
      [ "# papermill will replace parameters on some notebooks to make them run faster in CI";
        "papermill --execution-timeout=600 \";
        "  --parameters_file " +:+ q "./.buildkite/notebook-parameters.yml" +:+ " --log-output \";
        "  " +:+ q "${{ matrix.notebook }}" +:+ " " +:+ q "${{ matrix.notebook }}";
        "notebook_name=" +:+ dq +:+ "$(basename " +:+ q "${{ matrix.notebook }}" +:+ ")" +:+ dq;
        "echo " +:+ q "::set-output name=notebook_name::$notebook_name" ] Success;
    Step (Some "Upload artifact") None (Some "actions/upload-artifact@v1")
      [("name", "${{ steps.run_notebook.outputs.notebook_name }}");
       ("path", "${{ matrix.notebook }}")] [] Always ].

Definition notebooks : job :=
  Job "notebooks" "ubuntu-latest"
    (Strategy [("notebook", all_notebooks)]
              (map exclude_entry (excluded_neo4j ++ excluded_not_on_ci)))
    [("PYTHON_VERSION", "3.6")] notebooks_steps.

(** *** Job [validate-notebooks-list] *)

Definition validate_notebooks_list : job :=
  Job "validate-notebooks-list" "ubuntu-latest" no_strategy []
    [ Step None None (Some "actions/checkout@v2") [] [] Success;
      Step (Some "Install dependencies") None None []
        [ "python3 -m pip install --upgrade pip";
          "python3 -m pip install PyYAML" ] Success;
      Step (Some "Run check") None None []
        [ "python3 scripts/ci_workflow_notebook_list.py" ] Success ].

(** *** The file *)

(** [on.push] carries the comment "only build each push to develop and
    master, other branches are built through pull requests". *)
Definition ci : workflow :=
  WorkflowFile "Continuous Integration"
    [ Trigger "push" (Some ["develop"; "master"]);
      Trigger "pull_request" None ]
    [ build; notebooks; validate_notebooks_list ].

(** *** Triggers *)

(** An event of the hosting platform: a push to a branch or of a tag, or a
    pull request (opened or updated) against a base branch. *)
Inductive event :=
  | Push (branch : string)
  | PushTag (tag : string)
  | PullRequest (base : string).

(** Does trigger [t] fire on [e]?  A [branches:] filter restricts a push to
    the listed branches (the file lists plain names, no glob patterns) and,
    being the only filter, rules out tag pushes; no filter lets the event
    through. *)
Definition fires (t : trigger) (e : event) : bool :=
  match e with
  | Push b =>
      String.eqb (event_name t) "push" &&
      match branches t with
      | None => true
      | Some bs => mem b bs
      end
  | PushTag _ =>
      String.eqb (event_name t) "push" &&
      match branches t with
      | None => true
      | Some _ => false
      end
  | PullRequest b =>
      String.eqb (event_name t) "pull_request" &&
      match branches t with
      | None => true
      | Some bs => mem b bs
      end
  end.

Definition triggered (w : workflow) (e : event) : bool :=
  existsb (fun t => fires t e) (on w).

(** *** Matrix expansion *)

(** One job instance per combination of the axes' values ... *)
Fixpoint combinations (axes : list (string * list string))
  : list (list (string * string)) :=
  match axes with
  | [] => [[]]
  | (k, vs) :: rest =>
      flat_map (fun v => map (fun c => (k, v) :: c) (combinations rest)) vs
  end.

Definition has_binding (c : list (string * string)) (kv : string * string) : bool :=
  existsb (fun kv' => String.eqb (fst kv) (fst kv') && String.eqb (snd kv) (snd kv')) c.

(** ... except the combinations matched by an [exclude:] entry; an entry
    matches when all of its bindings occur in the combination. *)
Definition excluded (ex : list (list (string * string)))
  (c : list (string * string)) : bool :=
  existsb (fun entry => forallb (has_binding c) entry) ex.

Definition instances (j : job) : list (list (string * string)) :=
  List.filter (fun c => negb (excluded (exclude (job_strategy j)) c))
    (combinations (matrix (job_strategy j))).

Definition binding (k : string) (c : list (string * string)) : option string :=
  match find (fun kv => String.eqb k (fst kv)) c with
  | Some kv => Some (snd kv)
  | None => None
  end.

(** *** Expressions *)

(** [render] substitutes the [matrix.*] and [env.*] contexts of an instance
    into a string of the file. *)
Definition context (j : job) (c : list (string * string)) : list (string * string) :=
  map (fun kv => ("matrix." +:+ fst kv, snd kv)) c ++
  map (fun kv => ("env." +:+ fst kv, snd kv)) (env j).

Definition render (ctx : list (string * string)) (s : string) : string :=
  fold_left (fun acc kv => replace ("${{ " +:+ fst kv +:+ " }}") (snd kv) acc) ctx s.

(** *** Running the steps of one job instance *)

(** [fails i] tells whether the step at position [i] fails when it runs.
    [ok] is the job status so far: a step under [Success] runs only while no
    earlier step has failed, a step under [Always] runs regardless.  The
    result lists, per step, whether it ran. *)
Fixpoint run_from (fails : nat -> bool) (i : nat) (ok : bool) (ss : list step)
  : list bool :=
  match ss with
  | [] => []
  | s :: rest =>
      let runs := match cond s with Always => true | Success => ok end in
      runs :: run_from fails (S i) (ok && negb (runs && fails i)) rest
  end.

Definition run_steps (fails : nat -> bool) (j : job) : list bool :=
  run_from fails 0 true (steps j).

Definition is_upload_artifact (s : step) : bool :=
  match uses s with
  | Some u => starts_with "actions/upload-artifact@" u
  | None => false
  end.

Definition is_codecov_upload (s : step) : bool :=
  match uses s with
  | Some u => starts_with "codecov/codecov-action@" u
  | None => false
  end.

Definition with_value (k : string) (s : step) : option string :=
  match find (fun kv => String.eqb k (fst kv)) (with_ s) with
  | Some kv => Some (snd kv)
  | None => None
  end.

Definition runs_command (cmd : string) (s : step) : bool :=
  existsb (fun l => starts_with cmd (ltrim l)) (run s).

End Workflow.

(** ** The demo notebooks *)

Module Notebooks.

(** A code cell of a notebook file: its [position] in the file's [cells]
    array (markdown cells take the positions in between), its
    [execution_count], its [metadata.tags], the [execution_count] fields of
    its [execute_result] outputs, and its [source] lines. *)
Record cell := Cell {
  position : nat;
  execution_count : option nat;
  tags : list string;
  output_counts : list nat;
  source : list string
}.

Record notebook := Notebook {
  path : string;
  code_cells : list cell
}.

(** [demos/basics/loading-numpy.ipynb] *)
Definition loading_numpy : notebook :=
  Notebook "demos/basics/loading-numpy.ipynb"
  [ Cell 3 (Some 1) ["CloudRunner"] []
      [ "# install StellarGraph if running on Google Colab";
        "import sys";
        "if 'google.colab' in sys.modules:";
        "  %pip install -q stellargraph[demos]==1.2.1" ];
    Cell 4 (Some 2) ["VersionCheck"] []
      [ "# verify that we're using the correct version of StellarGraph for this notebook";
        "import stellargraph as sg";
        "";
        "try:";
        "    sg.utils.validate_notebook_version(" +:+ q "1.2.1" +:+ ")";
        "except AttributeError:";
        "    raise ValueError(";
        "        f" +:+ q "This notebook requires StellarGraph version 1.2.1, but a different version {sg.__version__} is installed.  Please see <https://github.com/stellargraph/stellargraph/issues/1172>.";
        "    ) from None" ];
    Cell 5 (Some 3) [] []
      [ "from stellargraph import StellarGraph" ];
    Cell 7 (Some 4) [] []
      [ "import numpy as np";
        "import pandas as pd" ];
    Cell 9 (Some 5) [] [5]
      [ "square_numeric_edges = pd.DataFrame(";
        "    {" +:+ q "source" +:+ ": [0, 1, 2, 3, 0], " +:+ q "target" +:+ ": [1, 2, 3, 0, 2]}";
        ")";
        "square_numeric_edges" ];
    Cell 11 (Some 6) [] [6]
      [ "feature_array = np.array(";
        "    [[1.0, -0.2], [2.0, 0.3], [3.0, 0.0], [4.0, -0.5]], dtype=np.float32";
        ")";
        "feature_array" ];
    Cell 13 (Some 7) [] []
      [ "square_numeric = StellarGraph(feature_array, square_numeric_edges)" ];
    Cell 15 (Some 8) [] []
      [ "print(square_numeric.info())" ];
    Cell 17 (Some 9) [] []
      [ "square_numeric_named = StellarGraph(";
        "    feature_array,";
        "    square_numeric_edges,";
        "    node_type_default=" +:+ q "corner" +:+ ",";
        "    edge_type_default=" +:+ q "line" +:+ ",";
        ")";
        "print(square_numeric_named.info())" ];
    Cell 19 (Some 10) [] [10]
      [ "square_edges = pd.DataFrame(";
        "    {" +:+ q "source" +:+ ": [" +:+ q "a" +:+ ", " +:+ q "b" +:+ ", " +:+ q "c" +:+ ", " +:+ q "d" +:+ ", " +:+ q "a" +:+ "], " +:+ q "target" +:+ ": [" +:+ q "b" +:+ ", " +:+ q "c" +:+ ", " +:+ q "d" +:+ ", " +:+ q "a" +:+ ", " +:+ q "c" +:+ "]}";
        ")";
        "square_edges" ];
    Cell 21 (Some 11) [] []
      [ "from stellargraph import IndexedArray" ];
    Cell 22 (Some 12) [] []
      [ "indexed_array = IndexedArray(feature_array, index=[" +:+ q "a" +:+ ", " +:+ q "b" +:+ ", " +:+ q "c" +:+ ", " +:+ q "d" +:+ "])" ];
    Cell 23 (Some 13) [] []
      [ "square_named = StellarGraph(";
        "    indexed_array, square_edges, node_type_default=" +:+ q "corner" +:+ ", edge_type_default=" +:+ q "line" +:+ ",";
        ")";
        "print(square_named.info())" ];
    Cell 26 (Some 14) [] [14]
      [ "feature_tensors = np.array(";
        "    [";
        "        [[1.0, -0.2], [1.0, 0.1], [0.9, 0.1]],";
        "        [[2.0, 0.3], [1.9, 0.31], [2.1, 0.32]],";
        "        [[3.0, 0.0], [10.0, 0.0], [3.0, 0.0]],";
        "        [[4.0, -0.5], [0.0, -1.0], [1.0, -3.0]],";
        "    ],";
        "    dtype=np.float32,";
        ")";
        "feature_tensors" ];
    Cell 27 (Some 15) [] []
      [ "indexed_tensors = IndexedArray(feature_tensors, index=[" +:+ q "a" +:+ ", " +:+ q "b" +:+ ", " +:+ q "c" +:+ ", " +:+ q "d" +:+ "])" ];
    Cell 28 (Some 16) [] []
      [ "square_tensors = StellarGraph(";
        "    indexed_tensors, square_edges, node_type_default=" +:+ q "corner" +:+ ", edge_type_default=" +:+ q "line" +:+ ",";
        ")";
        "print(square_tensors.info())" ];
    Cell 31 (Some 17) [] []
      [ "square_foo = IndexedArray(index=[" +:+ q "a" +:+ "])" ];
    Cell 32 (Some 18) [] [18]
      [ "bar_features = np.array([[0.4, 100], [0.1, 200], [0.9, 300]])";
        "bar_features" ];
    Cell 33 (Some 19) [] []
      [ "square_bar = IndexedArray(bar_features, index=[" +:+ q "b" +:+ ", " +:+ q "c" +:+ ", " +:+ q "d" +:+ "])" ];
    Cell 35 (Some 20) [] []
      [ "square_foo_and_bar = StellarGraph({" +:+ q "foo" +:+ ": square_foo, " +:+ q "bar" +:+ ": square_bar}, square_edges)";
        "print(square_foo_and_bar.info())" ];
    Cell 37 (Some 21) [] []
      [ "square_foo_overlap = IndexedArray(index=[" +:+ q "b" +:+ "])" ];
    Cell 38 (Some 22) [] []
      [ "# Uncomment to see the error";
        "# StellarGraph({" +:+ q "foo" +:+ ": square_foo_overlap, " +:+ q "bar" +:+ ": square_bar}, square_edges)" ];
    Cell 40 (Some 23) [] []
      [ "square_foo_overlap_prefix = IndexedArray(";
        "    square_foo_overlap.values, index=[f" +:+ q "foo-{s}" +:+ " for s in square_foo_overlap.index]";
        ")" ];
    Cell 41 (Some 24) [] []
      [ "square_bar_prefix = IndexedArray(";
        "    square_bar.values, index=[f" +:+ q "bar-{s}" +:+ " for s in square_bar.index]";
        ")" ];
    Cell 43 (Some 25) [] [25]
      [ "foo_tensors = np.array([[[1.0, -0.2], [1.0, 0.1], [0.9, 0.1]]])";
        "foo_tensors" ];
    Cell 44 (Some 26) [] []
      [ "square_foo_tensors = IndexedArray(foo_tensors, index=[" +:+ q "a" +:+ "])" ];
    Cell 45 (Some 27) [] []
      [ "square_foo_tensors_and_bar = StellarGraph(";
        "    {" +:+ q "foo" +:+ ": square_foo_tensors, " +:+ q "bar" +:+ ": square_bar}, square_edges";
        ")";
        "print(square_foo_tensors_and_bar.info())" ] ].

(** [demos/basics/loading-networkx.ipynb] *)
Definition loading_networkx : notebook :=
  Notebook "demos/basics/loading-networkx.ipynb"
  [ Cell 3 (Some 1) ["CloudRunner"] []
      [ "# install StellarGraph if running on Google Colab";
        "import sys";
        "if 'google.colab' in sys.modules:";
        "  %pip install -q stellargraph[demos]==1.2.1" ];
    Cell 4 (Some 2) ["VersionCheck"] []
      [ "# verify that we're using the correct version of StellarGraph for this notebook";
        "import stellargraph as sg";
        "";
        "try:";
        "    sg.utils.validate_notebook_version(" +:+ q "1.2.1" +:+ ")";
        "except AttributeError:";
        "    raise ValueError(";
        "        f" +:+ q "This notebook requires StellarGraph version 1.2.1, but a different version {sg.__version__} is installed.  Please see <https://github.com/stellargraph/stellargraph/issues/1172>.";
        "    ) from None" ];
    Cell 5 (Some 3) [] []
      [ "from stellargraph import StellarGraph" ];
    Cell 7 (Some 4) [] []
      [ "import networkx as nx" ];
    Cell 9 (Some 5) [] []
      [ "g = nx.Graph()";
        "g.add_edge(" +:+ q "a" +:+ ", " +:+ q "b" +:+ ")";
        "g.add_edge(" +:+ q "b" +:+ ", " +:+ q "c" +:+ ")";
        "g.add_edge(" +:+ q "c" +:+ ", " +:+ q "d" +:+ ")";
        "g.add_edge(" +:+ q "d" +:+ ", " +:+ q "a" +:+ ")";
        "# diagonal";
        "g.add_edge(" +:+ q "a" +:+ ", " +:+ q "c" +:+ ")" ];
    Cell 11 (Some 6) [] []
      [ "square = StellarGraph.from_networkx(g)" ];
    Cell 13 (Some 7) [] []
      [ "print(square.info())" ];
    Cell 15 (Some 8) [] []
      [ "square_named = StellarGraph.from_networkx(";
        "    g, node_type_default=" +:+ q "paper" +:+ ", edge_type_default=" +:+ q "cites";
        ")";
        "print(square_named.info())" ];
    Cell 17 (Some 9) [] [9]
      [ "g_feature_attr = g.copy()";
        "";
        "";
        "def compute_features(node_id):";
        "    # in general this could compute something based on other features, but for this example,";
        "    # we don't have any other features, so we'll just do something basic with the node_id";
        "    return [ord(node_id), len(node_id)]";
        "";
        "";
        "for node_id, node_data in g_feature_attr.nodes(data=True):";
        "    node_data[" +:+ q "feature" +:+ "] = compute_features(node_id)";
        "";
        "# let's see what some of them look like:";
        "g_feature_attr.nodes[" +:+ q "a" +:+ "], g_feature_attr.nodes[" +:+ q "c" +:+ "]" ];
    Cell 19 (Some 10) [] []
      [ "square_feature_attr = StellarGraph.from_networkx(g_feature_attr, node_features=" +:+ q "feature" +:+ ")";
        "print(square_feature_attr.info())" ];
    Cell 22 (Some 11) [] [11]
      [ "import pandas as pd";
        "";
        "features = pd.DataFrame(";
        "    {" +:+ q "x" +:+ ": [1, 2, 3, 4], " +:+ q "y" +:+ ": [-0.2, 0.3, 0.0, -0.5]}, index=[" +:+ q "a" +:+ ", " +:+ q "b" +:+ ", " +:+ q "c" +:+ ", " +:+ q "d" +:+ "]";
        ")";
        "features" ];
    Cell 24 (Some 12) [] []
      [ "square_feature_dataframe = StellarGraph.from_networkx(";
        "    g_feature_attr, node_features=features";
        ")";
        "print(square_feature_dataframe.info())" ];
    Cell 27 (Some 13) [] []
      [ "g_weighted = nx.Graph()";
        "g_weighted.add_edge(" +:+ q "a" +:+ ", " +:+ q "b" +:+ ", weight=1.0)";
        "g_weighted.add_edge(" +:+ q "b" +:+ ", " +:+ q "c" +:+ ", weight=2.0)";
        "g_weighted.add_edge(" +:+ q "c" +:+ ", " +:+ q "d" +:+ ", weight=3.0)";
        "g_weighted.add_edge(" +:+ q "d" +:+ ", " +:+ q "a" +:+ ", weight=4.0)";
        "# diagonal";
        "g_weighted.add_edge(" +:+ q "a" +:+ ", " +:+ q "c" +:+ ", weight=5.0)";
        "";
        "square_weighted = StellarGraph.from_networkx(g_weighted)";
        "print(square_weighted.info())" ];
    Cell 29 (Some 14) [] []
      [ "g_weighted_other = nx.Graph()";
        "g_weighted_other.add_edge(" +:+ q "a" +:+ ", " +:+ q "b" +:+ ", distance=1.0)";
        "g_weighted_other.add_edge(" +:+ q "b" +:+ ", " +:+ q "c" +:+ ", distance=2.0)";
        "g_weighted_other.add_edge(" +:+ q "c" +:+ ", " +:+ q "d" +:+ ", distance=3.0)";
        "g_weighted_other.add_edge(" +:+ q "d" +:+ ", " +:+ q "a" +:+ ", distance=4.0)";
        "# diagonal";
        "g_weighted_other.add_edge(" +:+ q "a" +:+ ", " +:+ q "c" +:+ ", distance=5.0)";
        "";
        "square_weighted_other = StellarGraph.from_networkx(";
        "    g_weighted, edge_weight_attr=" +:+ q "distance";
        ")";
        "print(square_weighted.info())" ];
    Cell 31 (Some 15) [] []
      [ "g_directed = nx.DiGraph()";
        "g_directed.add_edge(" +:+ q "a" +:+ ", " +:+ q "b" +:+ ")";
        "g_directed.add_edge(" +:+ q "b" +:+ ", " +:+ q "c" +:+ ")";
        "g_directed.add_edge(" +:+ q "c" +:+ ", " +:+ q "d" +:+ ")";
        "g_directed.add_edge(" +:+ q "d" +:+ ", " +:+ q "a" +:+ ")";
        "# diagonal";
        "g_directed.add_edge(" +:+ q "a" +:+ ", " +:+ q "c" +:+ ")";
        "";
        "square_directed = StellarGraph.from_networkx(g_directed)";
        "print(square_directed.info())" ];
    Cell 33 (Some 16) [] []
      [ "g_foo_bar = g.copy()";
        "nx.set_node_attributes(";
        "    g_foo_bar, {" +:+ q "a" +:+ ": " +:+ q "foo" +:+ ", " +:+ q "b" +:+ ": " +:+ q "bar" +:+ ", " +:+ q "c" +:+ ": " +:+ q "bar" +:+ ", " +:+ q "d" +:+ ": " +:+ q "bar" +:+ "}, " +:+ q "label";
        ")";
        "";
        "square_foo_bar = StellarGraph.from_networkx(g_foo_bar)";
        "print(square_foo_bar.info())" ];
    Cell 35 (Some 17) [] []
      [ "g_foo = g.copy()";
        "# only 'a' has a label attribute";
        "g_foo.nodes[" +:+ q "a" +:+ "][" +:+ q "label" +:+ "] = " +:+ q "foo";
        "";
        "square_foo_bar_default = StellarGraph.from_networkx(g_foo, node_type_default=" +:+ q "bar" +:+ ")";
        "print(square_foo_bar_default.info())" ];
    Cell 37 (Some 18) [] []
      [ "g_foo_other = g.copy()";
        "# only 'a' has a type attribute";
        "g_foo_other.nodes[" +:+ q "a" +:+ "][" +:+ q "type" +:+ "] = " +:+ q "foo";
        "";
        "square_foo_bar_other = StellarGraph.from_networkx(";
        "    g_foo, node_type_default=" +:+ q "bar" +:+ ", node_type_attr=" +:+ q "type";
        ")";
        "print(square_foo_bar_other.info())" ];
    Cell 39 (Some 19) [] []
      [ "g_foo_bar_attr = g_foo_bar.copy()";
        "nx.set_node_attributes(";
        "    g_foo_bar_attr,";
        "    {" +:+ q "a" +:+ ": [], " +:+ q "b" +:+ ": [0.4, 100], " +:+ q "c" +:+ ": [0.1, 200], " +:+ q "d" +:+ ": [0.9, 300]},";
        "    " +:+ q "feature" +:+ ",";
        ")" ];
    Cell 40 (Some 20) [] []
      [ "square_foo_bar_features_attr = StellarGraph.from_networkx(";
        "    g_foo_bar_attr, node_features=" +:+ q "feature";
        ")";
        "print(square_foo_bar_features_attr.info())" ];
    Cell 42 (Some 21) [] [21]
      [ "features_bar = pd.DataFrame(";
        "    {" +:+ q "y" +:+ ": [0.4, 0.1, 0.9], " +:+ q "z" +:+ ": [100, 200, 300]}, index=[" +:+ q "b" +:+ ", " +:+ q "c" +:+ ", " +:+ q "d" +:+ "]";
        ")";
        "features_bar" ];
    Cell 43 (Some 22) [] []
      [ "square_foo_bar_features_dataframe = StellarGraph.from_networkx(";
        "    g_foo_bar, node_features={" +:+ q "bar" +:+ ": features_bar}";
        ")";
        "print(square_foo_bar_features_dataframe.info())" ];
    Cell 45 (Some 23) [] []
      [ "g_orientation = nx.Graph()";
        "g_orientation.add_edge(" +:+ q "a" +:+ ", " +:+ q "b" +:+ ", label=" +:+ q "horizontal" +:+ ")";
        "g_orientation.add_edge(" +:+ q "b" +:+ ", " +:+ q "c" +:+ ", label=" +:+ q "vertical" +:+ ")";
        "g_orientation.add_edge(" +:+ q "c" +:+ ", " +:+ q "d" +:+ ", label=" +:+ q "horizontal" +:+ ")";
        "g_orientation.add_edge(" +:+ q "d" +:+ ", " +:+ q "a" +:+ ", label=" +:+ q "vertical" +:+ ")";
        "g_orientation.add_edge(" +:+ q "a" +:+ ", " +:+ q "c" +:+ ", label=" +:+ q "diagonal" +:+ ")" ];
    Cell 46 (Some 24) [] []
      [ "square_orientation = StellarGraph.from_networkx(g_orientation)";
        "print(square_orientation.info())" ];
    Cell 48 (Some 25) [] []
      [ "g_everything = g_orientation.copy()";
        "nx.set_node_attributes(";
        "    g_everything, {" +:+ q "a" +:+ ": " +:+ q "foo" +:+ ", " +:+ q "b" +:+ ": " +:+ q "bar" +:+ ", " +:+ q "c" +:+ ": " +:+ q "bar" +:+ ", " +:+ q "d" +:+ ": " +:+ q "bar" +:+ "}, " +:+ q "label";
        ")" ];
    Cell 49 (Some 26) [] []
      [ "stellar_everything = StellarGraph.from_networkx(";
        "    g_everything, node_features={" +:+ q "bar" +:+ ": features_bar}";
        ")";
        "print(stellar_everything.info())" ] ].

(** [demos/connector/neo4j/load-cora-into-neo4j.ipynb] *)
Definition load_cora_into_neo4j : notebook :=
  Notebook "demos/connector/neo4j/load-cora-into-neo4j.ipynb"
  [ Cell 3 (Some 1) ["CloudRunner"] []
      [ "# install StellarGraph if running on Google Colab";
        "import sys";
        "if 'google.colab' in sys.modules:";
        "  %pip install -q stellargraph[demos]==1.2.1" ];
    Cell 4 (Some 2) ["VersionCheck"] []
      [ "# verify that we're using the correct version of StellarGraph for this notebook";
        "import stellargraph as sg";
        "";
        "try:";
        "    sg.utils.validate_notebook_version(" +:+ q "1.2.1" +:+ ")";
        "except AttributeError:";
        "    raise ValueError(";
        "        f" +:+ q "This notebook requires StellarGraph version 1.2.1, but a different version {sg.__version__} is installed.  Please see <https://github.com/stellargraph/stellargraph/issues/1172>.";
        "    ) from None" ];
    Cell 5 (Some 3) [] []
      [ "import pandas as pd";
        "import os";
        "from stellargraph import datasets";
        "from IPython.display import display, HTML" ];
    Cell 8 (Some 4) ["DataLoading"] []
      [ "dataset = datasets.Cora()";
        "display(HTML(dataset.description))";
        "dataset.download()" ];
    Cell 9 (Some 5) [] []
      [ "edge_list = pd.read_csv(";
        "    os.path.join(dataset.data_directory, " +:+ q "cora.cites" +:+ "),";
        "    sep=" +:+ q "\t" +:+ ",";
        "    header=None,";
        "    names=[" +:+ q "target" +:+ ", " +:+ q "source" +:+ "],";
        ")";
        "edge_list[" +:+ q "label" +:+ "] = " +:+ q "cites" ];
    Cell 10 (Some 6) [] []
      [ "display(edge_list.head(5))" ];
    Cell 11 (Some 7) [] []
      [ "feature_names = [" +:+ q "w_{}" +:+ ".format(ii) for ii in range(1433)]";
        "column_names = feature_names + [" +:+ q "subject" +:+ "]";
        "node_list = pd.read_csv(";
        "    os.path.join(dataset.data_directory, " +:+ q "cora.content" +:+ "),";
        "    sep=" +:+ q "\t" +:+ ",";
        "    header=None,";
        "    names=column_names,";
        ")" ];
    Cell 13 (Some 8) [] [8]
      [ "# gather all features into lists under 'features' column.";
        "node_list[" +:+ q "features" +:+ "] = node_list[feature_names].values.tolist()";
        "";
        "node_list = node_list.drop(columns=feature_names)";
        "node_list[" +:+ q "id" +:+ "] = node_list.index";
        "node_list.head(5)" ];
    Cell 15 (Some 9) [] []
      [ "import time" ];
    Cell 16 (Some 10) [] []
      [ "import py2neo";
        "";
        "default_host = os.environ.get(" +:+ q "STELLARGRAPH_NEO4J_HOST" +:+ ")";
        "";
        "# Create the Neo4j Graph database object; the arguments can be edited to specify location and authentication";
        "graph = py2neo.Graph(host=default_host, port=None, user=None, password=None)" ];
    Cell 18 (Some 11) [] []
      [ "empty_db_query = " +:+ dq +:+ dq +:+ dq;
        "    MATCH(n) DETACH";
        "    DELETE(n)";
        "    " +:+ dq +:+ dq +:+ dq;
        "";
        "tx = graph.begin(autocommit=True)";
        "tx.evaluate(empty_db_query)" ];
    Cell 20 (Some 12) [] []
      [ "constraints = graph.run(" +:+ q "CALL db.constraints" +:+ ").data()";
        "for constraint in constraints:";
        "    graph.run(f" +:+ q "DROP CONSTRAINT {constraint['name']}" +:+ ")";
        "";
        "indexes = graph.run(" +:+ q "CALL db.indexes" +:+ ").data()";
        "for index in indexes:";
        "    graph.run(f" +:+ q "DROP INDEX {index['name']}" +:+ ")" ];
    Cell 22 (Some 13) [] []
      [ "loading_node_query = " +:+ dq +:+ dq +:+ dq;
        "    UNWIND $node_list as node";
        "    CREATE( e: paper {";
        "        ID: toInteger(node.id),";
        "        subject: node.subject,";
        "        features: node.features";
        "    })";
        "    " +:+ dq +:+ dq +:+ dq;
        "";
        "# For efficient loading, we will load batch of nodes into Neo4j.";
        "batch_len = 500";
        "";
        "for batch_start in range(0, len(node_list), batch_len):";
        "    batch_end = batch_start + batch_len";
        "    # turn node dataframe into a list of records";
        "    records = node_list.iloc[batch_start:batch_end].to_dict(" +:+ q "records" +:+ ")";
        "    tx = graph.begin(autocommit=True)";
        "    tx.evaluate(loading_node_query, parameters={" +:+ q "node_list" +:+ ": records})" ];
    Cell 24 (Some 14) [] []
      [ "loading_edge_query = " +:+ dq +:+ dq +:+ dq;
        "    UNWIND $edge_list as edge";
        "    ";
        "    MATCH(source: paper {ID: toInteger(edge.source)})";
        "    MATCH(target: paper {ID: toInteger(edge.target)})";
        "    ";
        "    MERGE (source)-[r:cites]->(target)";
        "    " +:+ dq +:+ dq +:+ dq;
        "";
        "batch_len = 500";
        "";
        "for batch_start in range(0, len(edge_list), batch_len):";
        "    batch_end = batch_start + batch_len";
        "    # turn edge dataframe into a list of records";
        "    records = edge_list.iloc[batch_start:batch_end].to_dict(" +:+ q "records" +:+ ")";
        "    tx = graph.begin(autocommit=True)";
        "    tx.evaluate(loading_edge_query, parameters={" +:+ q "edge_list" +:+ ": records})" ];
    Cell 26 (Some 15) [] []
      [ "node_id_constraint = " +:+ dq +:+ dq +:+ dq;
        "    CREATE CONSTRAINT";
        "    ON (n:paper)";
        "    ASSERT n.ID IS UNIQUE";
        "    " +:+ dq +:+ dq +:+ dq;
        "";
        "tx = graph.begin(autocommit=True)";
        "tx.evaluate(node_id_constraint)" ] ].

(** [demos/graph-classification/gcn-supervised-graph-classification.ipynb] *)
Definition gcn_supervised_graph_classification : notebook :=
  Notebook "demos/graph-classification/gcn-supervised-graph-classification.ipynb"
  [ Cell 3 (Some 1) ["CloudRunner"] []
      [ "# install StellarGraph if running on Google Colab";
        "import sys";
        "if 'google.colab' in sys.modules:";
        "  %pip install -q stellargraph[demos]==1.2.1" ];
    Cell 4 (Some 2) ["VersionCheck"] []
      [ "# verify that we're using the correct version of StellarGraph for this notebook";
        "import stellargraph as sg";
        "";
        "try:";
        "    sg.utils.validate_notebook_version(" +:+ q "1.2.1" +:+ ")";
        "except AttributeError:";
        "    raise ValueError(";
        "        f" +:+ q "This notebook requires StellarGraph version 1.2.1, but a different version {sg.__version__} is installed.  Please see <https://github.com/stellargraph/stellargraph/issues/1172>.";
        "    ) from None" ];
    Cell 5 (Some 3) [] []
      [ "import pandas as pd";
        "import numpy as np";
        "";
        "import stellargraph as sg";
        "from stellargraph.mapper import PaddedGraphGenerator";
        "from stellargraph.layer import GCNSupervisedGraphClassification";
        "from stellargraph import StellarGraph";
        "";
        "from stellargraph import datasets";
        "";
        "from sklearn import model_selection";
        "from IPython.display import display, HTML";
        "";
        "from tensorflow.keras import Model";
        "from tensorflow.keras.optimizers import Adam";
        "from tensorflow.keras.layers import Dense";
        "from tensorflow.keras.losses import binary_crossentropy";
        "from tensorflow.keras.callbacks import EarlyStopping";
        "import tensorflow as tf";
        "import matplotlib.pyplot as plt" ];
    Cell 8 (Some 4) ["DataLoading"] []
      [ "dataset = datasets.MUTAG()";
        "display(HTML(dataset.description))";
        "graphs, graph_labels = dataset.load()" ];
    Cell 10 (Some 5) [] []
      [ "print(graphs[0].info())" ];
    Cell 11 (Some 6) [] []
      [ "print(graphs[1].info())" ];
    Cell 13 (Some 7) [] [6]
      [ "summary = pd.DataFrame(";
        "    [(g.number_of_nodes(), g.number_of_edges()) for g in graphs],";
        "    columns=[" +:+ q "nodes" +:+ ", " +:+ q "edges" +:+ "],";
        ")";
        "summary.describe().round(1)" ];
    Cell 15 (Some 8) [] [7]
      [ "graph_labels.value_counts().to_frame()" ];
    Cell 16 (Some 9) [] []
      [ "graph_labels = pd.get_dummies(graph_labels, drop_first=True)" ];
    Cell 18 (Some 10) [] []
      [ "generator = PaddedGraphGenerator(graphs=graphs)" ];
    Cell 21 (Some 11) [] []
      [ "def create_graph_classification_model(generator):";
        "    gc_model = GCNSupervisedGraphClassification(";
        "        layer_sizes=[64, 64],";
        "        activations=[" +:+ q "relu" +:+ ", " +:+ q "relu" +:+ "],";
        "        generator=generator,";
        "        dropout=0.5,";
        "    )";
        "    x_inp, x_out = gc_model.in_out_tensors()";
        "    predictions = Dense(units=32, activation=" +:+ q "relu" +:+ ")(x_out)";
        "    predictions = Dense(units=16, activation=" +:+ q "relu" +:+ ")(predictions)";
        "    predictions = Dense(units=1, activation=" +:+ q "sigmoid" +:+ ")(predictions)";
        "";
        "    # Let's create the Keras model and prepare it for training";
        "    model = Model(inputs=x_inp, outputs=predictions)";
        "    model.compile(optimizer=Adam(0.005), loss=binary_crossentropy, metrics=[" +:+ q "acc" +:+ "])";
        "";
        "    return model" ];
    Cell 23 (Some 12) ["parameters"] []
      [ "epochs = 200  # maximum number of training epochs";
        "folds = 10  # the number of folds for k-fold cross validation";
        "n_repeats = 5  # the number of repeats for repeated k-fold cross validation" ];
    Cell 24 (Some 13) [] []
      [ "es = EarlyStopping(";
        "    monitor=" +:+ q "val_loss" +:+ ", min_delta=0, patience=25, restore_best_weights=True";
        ")" ];
    Cell 26 (Some 14) [] []
      [ "def train_fold(model, train_gen, test_gen, es, epochs):";
        "    history = model.fit(";
        "        train_gen, epochs=epochs, validation_data=test_gen, verbose=0, callbacks=[es],";
        "    )";
        "    # calculate performance on the test data and return along with history";
        "    test_metrics = model.evaluate(test_gen, verbose=0)";
        "    test_acc = test_metrics[model.metrics_names.index(" +:+ q "acc" +:+ ")]";
        "";
        "    return history, test_acc" ];
    Cell 27 (Some 15) [] []
      [ "def get_generators(train_index, test_index, graph_labels, batch_size):";
        "    train_gen = generator.flow(";
        "        train_index, targets=graph_labels.iloc[train_index].values, batch_size=batch_size";
        "    )";
        "    test_gen = generator.flow(";
        "        test_index, targets=graph_labels.iloc[test_index].values, batch_size=batch_size";
        "    )";
        "";
        "    return train_gen, test_gen" ];
    Cell 29 (Some 16) [] []
      [ "test_accs = []";
        "";
        "stratified_folds = model_selection.RepeatedStratifiedKFold(";
        "    n_splits=folds, n_repeats=n_repeats";
        ").split(graph_labels, graph_labels)";
        "";
        "for i, (train_index, test_index) in enumerate(stratified_folds):";
        "    print(f" +:+ q "Training and evaluating on fold {i+1} out of {folds * n_repeats}..." +:+ ")";
        "    train_gen, test_gen = get_generators(";
        "        train_index, test_index, graph_labels, batch_size=30";
        "    )";
        "";
        "    model = create_graph_classification_model(generator)";
        "";
        "    history, acc = train_fold(model, train_gen, test_gen, es, epochs)";
        "";
        "    test_accs.append(acc)" ];
    Cell 30 (Some 17) [] []
      [ "print(";
        "    f" +:+ q "Accuracy over all folds mean: {np.mean(test_accs)*100:.3}% and std: {np.std(test_accs)*100:.2}%";
        ")" ];
    Cell 32 (Some 18) [] [14]
      [ "plt.figure(figsize=(8, 6))";
        "plt.hist(test_accs)";
        "plt.xlabel(" +:+ q "Accuracy" +:+ ")";
        "plt.ylabel(" +:+ q "Count" +:+ ")" ] ].

Definition demos : list notebook :=
  [ loading_numpy; loading_networkx; load_cora_into_neo4j;
    gcn_supervised_graph_classification ].

End Notebooks.

(** ** Reading calls and imports off the source text *)

Module Python.

(** Lexical state while scanning Python source: in code, in a [#] comment,
    in a string literal opened by quote [q], or in a triple-quoted one. *)
Inductive lex_state :=
  | InCode
  | InComment
  | InString (quote : ascii)
  | InTriple (quote : ascii).

Definition is_quote (c : ascii) : bool :=
  ascii_eqb c (ascii_of_nat 34) || ascii_eqb c (ascii_of_nat 39).

Definition twice (c : ascii) : string := String c (String c EmptyString).

(** [skeleton] keeps the code and drops what cannot hold a call: comments
    go, and every string literal shrinks to its two quote characters. *)
Fixpoint skeleton_from (st : lex_state) (skip : nat) (s : string) : string :=
  match s with
  | EmptyString => EmptyString
  | String c rest =>
      match skip with
      | S k => skeleton_from st k rest
      | O =>
          match st with
          | InCode =>
              if ascii_eqb c "#" then skeleton_from InComment 0 rest
              else if is_quote c then
                if starts_with (twice c) rest
                then String c (skeleton_from (InTriple c) 2 rest)
                else String c (skeleton_from (InString c) 0 rest)
              else String c (skeleton_from InCode 0 rest)
          | InComment =>
              if ascii_eqb c nl then String c (skeleton_from InCode 0 rest)
              else skeleton_from InComment 0 rest
          | InString q =>
              if ascii_eqb c "\" then skeleton_from (InString q) 1 rest
              else if ascii_eqb c q then String c (skeleton_from InCode 0 rest)
              else if ascii_eqb c nl then String c (skeleton_from InCode 0 rest)
              else skeleton_from (InString q) 0 rest
          | InTriple q =>
              if ascii_eqb c q && starts_with (twice q) rest
              then String c (skeleton_from InCode 2 rest)
              else skeleton_from (InTriple q) 0 rest
          end
      end
  end.

Definition skeleton (src : list string) : string :=
  skeleton_from InCode 0 (unlines src).

Definition is_open (c : ascii) : bool :=
  ascii_eqb c "(" || ascii_eqb c "[" || ascii_eqb c "{".
Definition is_close (c : ascii) : bool :=
  ascii_eqb c ")" || ascii_eqb c "]" || ascii_eqb c "}".

Definition snoc (s : string) (c : ascii) : string := s +:+ String c EmptyString.

(** The arguments of a call, given the text after its opening parenthesis:
    the pieces between commas at nesting depth 0, up to the closing
    parenthesis. *)
Fixpoint arguments_from (depth : nat) (cur : string) (s : string) : list string :=
  match s with
  | EmptyString => [cur]
  | String c rest =>
      if is_open c then arguments_from (S depth) (snoc cur c) rest
      else if is_close c then
        match depth with
        | O => [cur]
        | S d => arguments_from d (snoc cur c) rest
        end
      else if ascii_eqb c "," && Nat.eqb depth 0
      then cur :: arguments_from 0 EmptyString rest
      else arguments_from depth (snoc cur c) rest
  end.

Fixpoint ident_prefix (s : string) : string * string :=
  match s with
  | String c rest =>
      if is_ident_char c
      then let '(i, r) := ident_prefix rest in (String c i, r)
      else (EmptyString, s)
  | EmptyString => (EmptyString, EmptyString)
  end.

(** [name=value] (and not [name == value]) is a keyword argument. *)
Definition keyword_of (arg : string) : option string :=
  let '(i, r) := ident_prefix (ltrim arg) in
  match i with
  | EmptyString => None
  | _ => if starts_with "=" (ltrim r) && negb (starts_with "==" (ltrim r))
         then Some i else None
  end.

(** A call site: how many positional arguments, and which keywords. *)
Record call := Call {
  positional : nat;
  keywords : list string
}.

Definition is_blank (s : string) : bool :=
  match ltrim s with EmptyString => true | _ => false end.

Definition call_of (args : list string) : call :=
  let given := List.filter (fun a => negb (is_blank a)) args in
  Call (List.length (List.filter (fun a => match keyword_of a with None => true | _ => false end) given))
       (flat_map (fun a => match keyword_of a with Some k => [k] | None => [] end) given).

(** The calls of [callee] in a skeleton: each place where the name, not
    being the tail of a longer dotted name, is followed by an opening
    parenthesis.  [inside] tells whether the previous character belongs to
    a name. *)
Fixpoint calls_from (callee : string) (inside : bool) (s : string) : list call :=
  match s with
  | EmptyString => []
  | String c rest =>
      (if negb inside && starts_with (callee +:+ "(") s
       then [call_of (arguments_from 0 EmptyString (drop (String.length callee + 1) s))]
       else [])
      ++ calls_from callee (is_ident_char c || ascii_eqb c ".") rest
  end.

Definition calls_in (callee : string) (src : list string) : list call :=
  calls_from callee false (skeleton src).

Fixpoint split_lines_from (cur : string) (s : string) : list string :=
  match s with
  | EmptyString => [cur]
  | String c rest =>
      if ascii_eqb c nl then cur :: split_lines_from EmptyString rest
      else split_lines_from (snoc cur c) rest
  end.

(** A cell imports from [module] when a line of its skeleton reads
    [import module ...] or [from module ...]. *)
Definition imports (module : string) (src : list string) : bool :=
  existsb
    (fun l => starts_with ("import " +:+ module) (ltrim l)
              || starts_with ("from " +:+ module) (ltrim l))
    (split_lines_from EmptyString (skeleton src)).

End Python.

(** ** Outcomes of Python code *)

Module Py.

Inductive exn :=
  | AttributeError (msg : string)
  | ValueError (msg : string)
  | OtherError (kind msg : string).

Inductive result (A : Type) :=
  | Return (a : A)
  | Raise (e : exn).
Arguments Return {A} a.
Arguments Raise {A} e.

Definition bind {A B : Type} (r : result A) (k : A -> result B) : result B :=
  match r with
  | Return a => k a
  | Raise e => Raise e
  end.

(** [try: body / except AttributeError: handler] *)
Definition except_AttributeError {A : Type} (body handler : result A) : result A :=
  match body with
  | Raise (AttributeError _) => handler
  | other => other
  end.

Definition raises {A : Type} (r : result A) : Prop :=
  match r with Raise _ => True | Return _ => False end.

Definition returns {A : Type} (r : result A) : Prop :=
  match r with Return _ => True | Raise _ => False end.

End Py.

(** ** The version-check cell *)

Module VersionCheck.
Import Py.

(** The cell tagged [VersionCheck], as it stands in every notebook. *)
Definition version_check_source : list string :=
  [ "# verify that we're using the correct version of StellarGraph for this notebook";
    "import stellargraph as sg";
    "";
    "try:";
    "    sg.utils.validate_notebook_version(" +:+ q "1.2.1" +:+ ")";
    "except AttributeError:";
    "    raise ValueError(";
    "        f" +:+ q "This notebook requires StellarGraph version 1.2.1, but a different version {sg.__version__} is installed.  Please see <https://github.com/stellargraph/stellargraph/issues/1172>.";
    "    ) from None" ].

(** What the cell sees of the imported package [sg]: the attribute
    [sg.__version__], if the package has one, and
    [sg.utils.validate_notebook_version], which an older installation does
    not have.  The utility is the library's; here it is whatever function
    the installation provides. *)
Record installation := Installation {
  version : option string;
  validate_notebook_version : option (string -> result unit)
}.

(** Attribute lookup [sg.__version__]. *)
Definition lookup_version (sg : installation) : result string :=
  match version sg with
  | Some v => Return v
  | None =>
      Raise (AttributeError "module 'stellargraph' has no attribute '__version__'")
  end.

(** Attribute lookup [sg.utils.validate_notebook_version]. *)
Definition lookup_validate (sg : installation) : result (string -> result unit) :=
  match validate_notebook_version sg with
  | Some f => Return f
  | None =>
      Raise (AttributeError
        "module 'stellargraph.utils' has no attribute 'validate_notebook_version'")
  end.

(** The f-string of the [raise]. *)
Definition message (v : string) : string :=
  "This notebook requires StellarGraph version 1.2.1, but a different version "
  +:+ v +:+
  " is installed.  Please see <https://github.com/stellargraph/stellargraph/issues/1172>.".

(** The cell body after the import.  The handler builds its message
    first, reading [sg.__version__], and raises the [ValueError] then. *)
Definition version_check (sg : installation) : result unit :=
  except_AttributeError
    (bind (lookup_validate sg) (fun validate => validate "1.2.1"))
    (bind (lookup_version sg) (fun v => Raise (ValueError (message v)))).

End VersionCheck.

(** ** The library calls the notebooks make *)

Module Library.
Import Py.

(** Node identifiers: the notebooks use integers ([0], [1], ...) and
    strings (["a"], ["b"], ...). *)
Inductive node_id :=
  | IdNum (n : Z)
  | IdStr (s : string).

#[global] Instance node_id_eq_dec : EqDecision node_id.
Proof. solve_decision. Defined.

(** A row of an edge DataFrame with [source] and [target] columns. *)
Record edge := Edge {
  source : node_id;
  target : node_id
}.

Section Model.

(** The element type of feature arrays; a row of an array is the list of
    the features of one node (a vector, or a tensor flattened). *)
Context {feature : Type}.

Record IndexedArray := MkIndexedArray {
  values : list (list feature);
  index : list node_id
}.

(** Identifiers [0 .. n-1]. *)
Definition range_index (n : nat) : list node_id :=
  map (fun i => IdNum (Z.of_nat i)) (seq 0 n).

(** Modelled from the spec: the constructor [IndexedArray(values, index=...)]
    of the library, which is not part of the material.  The spec calls it "a
    simplified labeled-array type used to attach row identifiers to raw
    numeric feature arrays"; the loading-numpy notebook adds that [index]
    defines "the mapping from row to node" and "should have one element per
    row of the NumPy array", and calls it with both arguments and with
    [index=] alone (an array of rows without features).  Without [index=]
    the rows are numbered from 0, as for a bare array. *)
Definition IndexedArray_init (vals : option (list (list feature)))
  (idx : option (list node_id)) : result IndexedArray :=
  let vs :=
    match vals with
    | Some v => v
    | None => repeat [] (List.length (default [] idx))
    end in
  let ix :=
    match idx with
    | Some i => i
    | None => range_index (List.length vs)
    end in
  if decide (List.length ix = List.length vs)
  then Return (MkIndexedArray vs ix)
  else Raise (ValueError "index: expected one element per row of values").

(** Row [i] of an array with its identifier. *)
Definition labelled_rows (a : IndexedArray) : list (node_id * list feature) :=
  zip (index a) (values a).

(** The row attached to an identifier. *)
Definition row_of (a : IndexedArray) (id : node_id) : option (list feature) :=
  snd <$> List.find (fun r => bool_decide (fst r = id)) (labelled_rows a).

(** The first argument of [StellarGraph(...)]: a bare NumPy array, one
    [IndexedArray], or a dictionary from node type to [IndexedArray]. *)
Inductive node_data :=
  | BareArray (vals : list (list feature))
  | OneArray (a : IndexedArray)
  | ByType (d : gmap string IndexedArray).

Record StellarGraph := MkStellarGraph {
  nodes : gmap string IndexedArray;
  edges : gmap string (list edge)
}.

(** All node identifiers of a dictionary of node types. *)
Definition node_ids (d : gmap string IndexedArray) : list node_id :=
  map_to_list d ≫= (fun ta => index (snd ta)).

Definition known (ids : list node_id) (e : edge) : bool :=
  bool_decide (source e ∈ ids) && bool_decide (target e ∈ ids).

Definition typed_nodes (nt : string) (n : node_data) : gmap string IndexedArray :=
  match n with
  | BareArray v => {[ nt := MkIndexedArray v (range_index (List.length v)) ]}
  | OneArray a => {[ nt := a ]}
  | ByType d => d
  end.

(** Modelled from the spec: the constructor
    [StellarGraph(features, edges, node_type_default=..., edge_type_default=...)]
    of the library, which is not part of the material.  From the spec:
    "constructing a heterogeneous graph with duplicate node identifiers
    across types raises an error", and a homogeneous graph is "a graph with
    exactly one node type and one edge type".  From the loading-numpy
    notebook: a single array gives the one node type [node_type_default] and
    the edges the one edge type [edge_type_default], both ["default"] when
    not given; a bare array has the identifiers 0, 1, ...; "Node IDs ...
    needs to be unique across all types"; and the edges name their end
    points by node identifier. *)
Definition StellarGraph_init (n : node_data) (es : list edge)
  (node_type_default edge_type_default : option string) : result StellarGraph :=
  let d := typed_nodes (default "default" node_type_default) n in
  if decide (NoDup (node_ids d)) then
    if forallb (known (node_ids d)) es
    then Return (MkStellarGraph d {[ default "default" edge_type_default := es ]})
    else Raise (ValueError "edges: source or target is not a node of the graph")
  else Raise (ValueError "nodes: identifiers are not unique across node types").

(** The type of a node: the node type whose index holds it. *)
Definition node_type_of (g : StellarGraph) (id : node_id) : option string :=
  fst <$> List.find (fun ta => bool_decide (id ∈ index (snd ta)))
            (map_to_list (nodes g)).

(** Counting equal entries: each distinct entry once, with its number of
    occurrences. *)
Fixpoint tally {A : Type} `{EqDecision A} (l : list A) : list (A * nat) :=
  match l with
  | [] => []
  | x :: rest =>
      let t := tally rest in
      match List.find (fun p => bool_decide (fst p = x)) t with
      | Some _ =>
          map (fun p => if bool_decide (fst p = x) then (fst p, S (snd p)) else p) t
      | None => (x, 1) :: t
      end
  end.

(** For the edges of one edge type: the node types of the two ends of
    each edge. *)
Definition triples (g : StellarGraph) (es : list edge) : list (string * string) :=
  omap (fun e =>
          match node_type_of g (source e), node_type_of g (target e) with
          | Some s, Some t => Some (s, t)
          | _, _ => None
          end) es.

Record summary := Summary {
  number_of_nodes : nat;
  number_of_edges : nat;
  node_types : list (string * nat);
  edge_types : list (string * string * string * nat)
}.

(** Modelled from the spec: the method [StellarGraph.info()] of the
    library, which is not part of the material, as the summary the notebooks
    print: the totals; below "Node types:" each node type with its number of
    nodes; below "Edge types:" one line
    "source type-edge type->target type: [count]" per type triple that the
    edges of the graph show, so that an edge type without edges has no
    line.  Feature shapes and weights are left out. *)
Definition info (g : StellarGraph) : summary :=
  Summary
    (List.length (node_ids (nodes g)))
    (List.length (map_to_list (edges g) ≫= snd))
    (map (fun ta => (fst ta, List.length (index (snd ta)))) (map_to_list (nodes g)))
    (flat_map
       (fun tes =>
          map (fun line => (fst (fst line), fst tes, snd (fst line), snd line))
            (tally (triples g (snd tes))))
       (map_to_list (edges g))).

(** The node types and the edge types that a summary lists. *)
Definition reported_node_types (s : summary) : list string :=
  map fst (node_types s).

Definition reported_edge_types (s : summary) : list string :=
  map (fun line => snd (fst (fst line))) (edge_types s).

(** Some node identifier stands in the index of two different node types. *)
Definition shared_between_types (d : gmap string IndexedArray) : Prop :=
  exists (t1 t2 : string) (a1 a2 : IndexedArray) (id : node_id),
    t1 <> t2 /\ d !! t1 = Some a1 /\ d !! t2 = Some a2 /\
    id ∈ index a1 /\ id ∈ index a2.

(** The rest of what makes the arguments valid: no identifier twice within
    one type, and edges between nodes of the graph. *)
Definition otherwise_valid (d : gmap string IndexedArray) (es : list edge) : Prop :=
  (forall (t : string) (a : IndexedArray), d !! t = Some a -> NoDup (index a)) /\
  (forall e : edge, e ∈ es -> source e ∈ node_ids d /\ target e ∈ node_ids d).

End Model.

Arguments IndexedArray feature : clear implicits.
Arguments StellarGraph feature : clear implicits.
Arguments node_data feature : clear implicits.

End Library.

(** ** The loading-numpy notebook, run against the model *)

Module LoadingNumpy.
Import Py Library.

(** Float literals are kept as written. *)
Definition feature_array : list (list string) :=
  [ ["1.0"; "-0.2"]; ["2.0"; "0.3"]; ["3.0"; "0.0"]; ["4.0"; "-0.5"] ].

Definition frame (sources targets : list node_id) : list edge :=
  map (fun st => Edge (fst st) (snd st)) (zip sources targets).

Definition square_numeric_edges : list edge :=
  frame (map IdNum [0; 1; 2; 3; 0]%Z) (map IdNum [1; 2; 3; 0; 2]%Z).

Definition square_edges : list edge :=
  frame (map IdStr ["a"; "b"; "c"; "d"; "a"]) (map IdStr ["b"; "c"; "d"; "a"; "c"]).

(** Cells 7 and 9. *)
Definition square_numeric : result (StellarGraph string) :=
  StellarGraph_init (BareArray feature_array) square_numeric_edges None None.

Definition square_numeric_named : result (StellarGraph string) :=
  StellarGraph_init (BareArray feature_array) square_numeric_edges
    (Some "corner") (Some "line").

(** Cells 12 and 13. *)
Definition indexed_array : result (IndexedArray string) :=
  IndexedArray_init (Some feature_array) (Some (map IdStr ["a"; "b"; "c"; "d"])).

Definition square_named : result (StellarGraph string) :=
  bind indexed_array (fun a =>
    StellarGraph_init (OneArray a) square_edges (Some "corner") (Some "line")).

(** Cells 17 to 20. *)
Definition square_foo : result (IndexedArray string) :=
  IndexedArray_init None (Some [IdStr "a"]).

Definition bar_features : list (list string) :=
  [ ["0.4"; "100"]; ["0.1"; "200"]; ["0.9"; "300"] ].

Definition square_bar : result (IndexedArray string) :=
  IndexedArray_init (Some bar_features) (Some (map IdStr ["b"; "c"; "d"])).

Definition square_foo_and_bar : result (StellarGraph string) :=
  bind square_foo (fun foo => bind square_bar (fun bar =>
    StellarGraph_init (ByType (<["foo" := foo]> (<["bar" := bar]> ∅)))
      square_edges None None)).

(** Cells 21 and 22 (the call of cell 22 is commented out in the file:
    "Uncomment to see the error"). *)
Definition square_foo_overlap : result (IndexedArray string) :=
  IndexedArray_init None (Some [IdStr "b"]).

Definition square_foo_overlap_and_bar : result (StellarGraph string) :=
  bind square_foo_overlap (fun foo => bind square_bar (fun bar =>
    StellarGraph_init (ByType (<["foo" := foo]> (<["bar" := bar]> ∅)))
      square_edges None None)).

Definition printed (g : result (StellarGraph string)) : result summary :=
  bind g (fun g => Return (info g)).

End LoadingNumpy.

(** ** Loading Cora into the database: the cells of the Neo4j notebook *)

Module Cora.
Import Py.

(** ["{}".format(ii)] for a natural number. *)
Definition decimal (n : nat) : string :=
  NilEmpty.string_of_uint (Nat.to_uint n).

(** [range(start, stop, step)] for a step that is not negative: the values
    [start], [start + step], ... below [stop].  A step of 0 raises.  With a
    positive step the countdown [fuel = stop] is never exhausted. *)
Fixpoint range_from (fuel start stop step : nat) : list nat :=
  match fuel with
  | O => []
  | S fuel' =>
      if Nat.ltb start stop
      then start :: range_from fuel' (start + step) stop step
      else []
  end.

Definition range (start stop step : nat) : result (list nat) :=
  if Nat.eqb step 0
  then Raise (ValueError "range() arg 3 must not be zero")
  else Return (range_from stop start stop step).

(** [table.iloc[a:b]]: the rows from position [a] up to, not including,
    position [b], as far as the table goes. *)
Definition iloc {A : Type} (table : list A) (a b : nat) : list A :=
  firstn (b - a) (skipn a table).

(** The loading loop of cells 13 and 14,
    [for batch_start in range(0, len(table), batch_len):
       batch_end = batch_start + batch_len
       records = table.iloc[batch_start:batch_end].to_dict("records")
       tx = graph.begin(autocommit=True)
       tx.evaluate(query, parameters={...: records})],
    as the list of the [records] it hands to [tx.evaluate], in order. *)
Definition load_in_batches {A : Type} (batch_len : nat) (table : list A)
  : result (list (list A)) :=
  bind (range 0 (List.length table) batch_len) (fun starts =>
    Return (map (fun batch_start =>
                   let batch_end := batch_start + batch_len in
                   iloc table batch_start batch_end) starts)).

(** Cell 7: [feature_names = ["w_{}".format(ii) for ii in range(1433)]] and
    [column_names = feature_names + ["subject"]], for any number of word
    columns. *)
Definition feature_names (n : nat) : list string :=
  map (fun ii => "w_" +:+ decimal ii) (seq 0 n).

Definition column_names (n : nat) : list string :=
  feature_names n ++ ["subject"].

(** The column labels of a DataFrame, through the operations the cells
    use.  Selecting or dropping a label that is not there raises
    [KeyError]; assigning to a label adds it at the end unless it is there
    already. *)
Definition all_present (labels columns : list string) : bool :=
  forallb (fun l => mem l columns) labels.

Definition select (columns labels : list string) : result (list string) :=
  if all_present labels columns then Return labels
  else Raise (OtherError "KeyError" "not in index").

Definition assign (columns : list string) (label : string) : list string :=
  if mem label columns then columns else columns ++ [label].

Definition drop_columns (columns labels : list string) : result (list string) :=
  if all_present labels columns
  then Return (List.filter (fun c => negb (mem c labels)) columns)
  else Raise (OtherError "KeyError" "not found in axis").

(** Cells 7 and 8, on the labels:
    [node_list = pd.read_csv(..., header=None, names=column_names)],
    [node_list["features"] = node_list[feature_names].values.tolist()],
    [node_list = node_list.drop(columns=feature_names)],
    [node_list["id"] = node_list.index]. *)
Definition node_list_columns (n : nat) : result (list string) :=
  let node_list := column_names n in
  bind (select node_list (feature_names n)) (fun _ =>
    let node_list := assign node_list "features" in
    bind (drop_columns node_list (feature_names n)) (fun node_list =>
      Return (assign node_list "id"))).

(** Cell 5: [edge_list = pd.read_csv(..., names=["target", "source"])],
    [edge_list["label"] = "cites"]. *)
Definition edge_list_columns : list string :=
  assign ["target"; "source"] "label".

(** The fields [var.field] that a piece of text reads from [var]. *)
Fixpoint fields_from (var : string) (inside : bool) (s : string) : list string :=
  match s with
  | EmptyString => []
  | String c rest =>
      (if negb inside && starts_with (var +:+ ".") s
       then [fst (Python.ident_prefix (drop (String.length var + 1) s))]
       else [])
      ++ fields_from var (is_ident_char c) rest
  end.

Definition fields_read (var : string) (src : list string) : list string :=
  fields_from var false (unlines src).

End Cora.

(** ** [compute_features] of the NetworkX notebook *)

Module NetworkxDemo.
Import Py.

(** A node identifier as Python has it: a [str], the sequence of its
    characters given by their code points, or an [int] (the two kinds of
    identifier the notebooks use). *)
Inductive node_key :=
  | KStr (codes : list N)
  | KInt (n : Z).

(** The [str] of an ASCII text. *)
Definition text (s : string) : node_key :=
  KStr (map N_of_ascii (list_ascii_of_string s)).

(** [ord(x)]: the code point of a one-character string; [TypeError] for a
    string of any other length and for an integer. *)
Definition ord (x : node_key) : result N :=
  match x with
  | KStr [c] => Return c
  | KStr s =>
      Raise (OtherError "TypeError"
               ("ord() expected a character, but string of length "
                +:+ Cora.decimal (List.length s) +:+ " found"))
  | KInt _ =>
      Raise (OtherError "TypeError"
               "ord() expected string of length 1, but int found")
  end.

(** [len(x)]: the number of characters of a string; an integer has no
    length. *)
Definition len (x : node_key) : result N :=
  match x with
  | KStr s => Return (N.of_nat (List.length s))
  | KInt _ => Raise (OtherError "TypeError" "object of type 'int' has no len()")
  end.

(** Cell 9:
    [def compute_features(node_id): return [ord(node_id), len(node_id)]]. *)
Definition compute_features (node_id : node_key) : result (list N) :=
  bind (ord node_id) (fun code =>
    bind (len node_id) (fun length => Return [code; length])).

(** Cell 9, the loop
    [for node_id, node_data in g_feature_attr.nodes(data=True):
       node_data["feature"] = compute_features(node_id)],
    as the feature attribute each node ends up with. *)
Fixpoint assign_features (node_ids : list node_key)
  : result (list (node_key * list N)) :=
  match node_ids with
  | [] => Return []
  | node_id :: rest =>
      bind (compute_features node_id) (fun f =>
        bind (assign_features rest) (fun done => Return ((node_id, f) :: done)))
  end.

End NetworkxDemo.

(** ** Making node identifiers unique with a prefix (loading-numpy) *)

Module Relabel.
Import Library.

(** [f"{s}"] for a node identifier. *)
Definition str (id : node_id) : string :=
  match id with
  | IdStr s => s
  | IdNum n => NilEmpty.string_of_int (Z.to_int n)
  end.

(** Cells 23 and 24: [index=[f"foo-{s}" for s in square_foo_overlap.index]]
    and [index=[f"bar-{s}" for s in square_bar.index]]. *)
Definition prefixed (p : string) (index : list node_id) : list node_id :=
  map (fun s => IdStr (p +:+ str s)) index.

(** [IndexedArray(a.values, index=[f"{p}{s}" for s in a.index])]. *)
Definition with_prefix {feature : Type} (p : string) (a : IndexedArray feature)
  : Py.result (IndexedArray feature) :=
  IndexedArray_init (Some (values a)) (Some (prefixed p (index a))).

Definition is_string (id : node_id) : Prop :=
  match id with IdStr _ => True | IdNum _ => False end.

End Relabel.

(** ** [train_fold] of the graph-classification notebook *)

Module GraphClassification.
Import Py.

(** [names.index(x)]: the first position of [x], [ValueError] when [x] is
    not in the list. *)
Fixpoint list_index (x : string) (names : list string) : result nat :=
  match names with
  | [] => Raise (ValueError ("'" +:+ x +:+ "' is not in list"))
  | y :: rest =>
      if String.eqb y x then Return 0
      else bind (list_index x rest) (fun i => Return (S i))
  end.

(** [values[i]], [IndexError] out of range. *)
Definition subscript {A : Type} (values : list A) (i : nat) : result A :=
  match nth_error values i with
  | Some v => Return v
  | None => Raise (OtherError "IndexError" "list index out of range")
  end.

(** Cell 14,
    [def train_fold(model, train_gen, test_gen, es, epochs):
       history = model.fit(...)
       test_metrics = model.evaluate(test_gen, verbose=0)
       test_acc = test_metrics[model.metrics_names.index("acc")]
       return history, test_acc],
    with the outcomes of [model.fit] and [model.evaluate] and the value of
    [model.metrics_names] as given. *)
Definition train_fold {history metric : Type}
  (fit : result history) (evaluate : result (list metric))
  (metrics_names : list string) : result (history * metric) :=
  bind fit (fun history =>
    bind evaluate (fun test_metrics =>
      bind (bind (list_index "acc" metrics_names) (subscript test_metrics))
        (fun test_acc => Return (history, test_acc)))).

End GraphClassification.

(** ** Which graph each [from_networkx] call receives *)

Module Arguments.
Import Notebooks Python.

Fixpoint rtrim_rev (s : list ascii) : list ascii :=
  match s with
  | c :: rest => if is_space c then rtrim_rev rest else s
  | [] => []
  end.

Definition trim (s : string) : string :=
  string_of_list_ascii
    (rev (rtrim_rev (rev (list_ascii_of_string (ltrim s))))).

(** Like [Python.calls_from], keeping the text of the arguments. *)
Fixpoint argument_texts_from (callee : string) (inside : bool) (s : string)
  : list (list string) :=
  match s with
  | EmptyString => []
  | String c rest =>
      (if negb inside && starts_with (callee +:+ "(") s
       then [map trim (arguments_from 0 EmptyString
                         (drop (String.length callee + 1) s))]
       else [])
      ++ argument_texts_from callee (is_ident_char c || ascii_eqb c ".") rest
  end.

(** The first argument of every call of [callee] in a notebook, in the
    order of the calls. *)
Definition first_arguments (callee : string) (n : notebook) : list string :=
  flat_map
    (fun c =>
       flat_map (fun args => match args with a :: _ => [a] | [] => [] end)
         (argument_texts_from callee false (skeleton (source c))))
    (code_cells n).

(** The names a notebook assigns at the start of a line, [name = ...]. *)
Definition assigned_name (line : string) : list string :=
  let '(i, r) := ident_prefix line in
  match i with
  | EmptyString => []
  | _ => if starts_with " = " r then [i] else []
  end.

Definition assigned_names (n : notebook) : list string :=
  flat_map
    (fun c => flat_map assigned_name (split_lines_from EmptyString (skeleton (source c))))
    (code_cells n).

End Arguments.

(** ** What the notebooks call *)

Module Usage.
Import Notebooks Python.

Definition calls_of_notebook (callee : string) (n : notebook) : list call :=
  flat_map (fun c => calls_in callee (source c)) (code_cells n).

Definition all_calls (callee : string) : list call :=
  flat_map (calls_of_notebook callee) demos.

(** The same keywords, in any order. *)
Definition same_keywords (k1 k2 : list string) : bool :=
  forallb (fun k => mem k k2) k1 && forallb (fun k => mem k k1) k2.

Definition has_shape (pos : nat) (kws : list string) (k : call) : bool :=
  Nat.eqb (positional k) pos && same_keywords (keywords k) kws.

(** Some code cell of some notebook calls [callee] with [pos] positional
    arguments and exactly the keyword parameters [kws]. *)
Definition invoked (callee : string) (pos : nat) (kws : list string) : Prop :=
  exists n c k,
    In n demos /\ In c (code_cells n) /\ In k (calls_in callee (source c)) /\
    has_shape pos kws k = true.

End Usage.

(** * Properties *)

(** ** Text *)

Lemma mem_In s l : mem s l = true <-> In s l.
Proof.
  unfold mem. rewrite existsb_exists. split.
  - intros (x & Hx & He). apply String.eqb_eq in He. now subst.
  - intros H. exists s. split; [assumption | apply String.eqb_refl].
Qed.

Lemma ascii_eqb_refl c : ascii_eqb c c = true.
Proof. apply Ascii.eqb_refl. Qed.

Lemma starts_with_append p s : starts_with p (p +:+ s) = true.
Proof.
  induction p as [|c p IH]; simpl; [reflexivity|].
  now rewrite ascii_eqb_refl, IH.
Qed.

Lemma contains_here p s : starts_with p s = true -> contains p s = true.
Proof. intros H. destruct s; simpl in *; now rewrite H. Qed.

Lemma contains_append_r p a s : contains p s = true -> contains p (a +:+ s) = true.
Proof.
  intros H. induction a as [|c a IH]; simpl; [assumption|].
  rewrite IH. apply orb_true_r.
Qed.

Lemma contains_middle p a b : contains p (a +:+ p +:+ b) = true.
Proof. apply contains_append_r, contains_here, starts_with_append. Qed.

(** ** The workflow *)

Section WorkflowProperties.
Import Workflow.

(** *** Triggers *)

(** C4, as stated, fails: a push to a branch other than develop and master
    does not start the workflow. *)
Lemma C4_push_elsewhere_not_built :
  ~ (forall e : event,
       (exists b, e = Push b) \/ (exists b, e = PullRequest b) ->
       triggered ci e = true).
Proof.
  intros H.
  specialize (H (Push "feature/new-layer")).
  assert (triggered ci (Push "feature/new-layer") = false) as E by reflexivity.
  rewrite E in H. discriminate H. left. now exists "feature/new-layer".
Qed.

(** C4, amended: the workflow runs on exactly the pushes to the branches
    develop and master and on every pull request, whatever its base
    branch. *)
Theorem C4_triggered_on_push_to_main_branches_and_pull_requests (e : event) :
  triggered ci e = true <->
  e = Push "develop" \/ e = Push "master" \/ exists b, e = PullRequest b.
Proof.
  destruct e as [b | t | b].
  - assert (triggered ci (Push b) = mem b ["develop"; "master"]) as ->
      by (unfold triggered; cbn -[mem]; now rewrite orb_false_r).
    rewrite mem_In. cbn. split.
    + intros [<- | [<- | []]]; auto.
    + intros [H | [H | (b' & H)]]; inversion H; auto.
  - split; [discriminate|].
    intros [H | [H | (b' & H)]]; inversion H.
  - split; [|reflexivity]. intros _. right; right. now exists b.
Qed.

Lemma C4_witness :
  triggered ci (Push "master") = true /\
  triggered ci (PullRequest "feature/new-layer") = true.
Proof.
  split.
  - apply (C4_triggered_on_push_to_main_branches_and_pull_requests (Push "master")).
    right; left; reflexivity.
  - apply (C4_triggered_on_push_to_main_branches_and_pull_requests
             (PullRequest "feature/new-layer")).
    right; right. exists "feature/new-layer". reflexivity.
Defined.

(** *** The matrix of the two jobs *)

Lemma notebooks_instances :
  instances notebooks =
  map exclude_entry
    (List.filter (fun nb => negb (mem nb (excluded_neo4j ++ excluded_not_on_ci)))
       all_notebooks).
Proof. vm_compute. reflexivity. Qed.

Lemma exclude_entry_inj a b : exclude_entry a = exclude_entry b -> a = b.
Proof. unfold exclude_entry. now intros [= ->]. Qed.

(** C2, as stated, fails for the notebooks job: a notebook of the matrix
    list that is also under [exclude:] gets no instance. *)
Lemma C2_excluded_notebook_has_no_instance :
  ~ (forall nb : string,
       In nb all_notebooks ->
       exists c, In c (instances notebooks) /\ binding "notebook" c = Some nb).
Proof.
  intros H.
  destruct (H "demos/basics/loading-saving-neo4j.ipynb") as (c & Hc & Hb).
  { apply mem_In. vm_compute. reflexivity. }
  assert (forallb
            (fun c => match binding "notebook" c with
                      | Some nb => negb (String.eqb nb "demos/basics/loading-saving-neo4j.ipynb")
                      | None => true
                      end) (instances notebooks) = true) as A
    by (vm_compute; reflexivity).
  rewrite forallb_forall in A. specialize (A c Hc).
  rewrite Hb, String.eqb_refl in A. discriminate A.
Qed.

(** C2, amended: the build job has one instance per Python version 3.6,
    3.7 and 3.8, and its steps install the dependencies and then run the
    pytest suite; the notebooks job has one instance per notebook of its
    matrix list that is not under [exclude:], 43 of the 56. *)
Theorem C2_one_instance_per_version_and_per_runnable_notebook :
  instances build =
    [ [("python-version", "3.6")]; [("python-version", "3.7")];
      [("python-version", "3.8")] ] /\
  (exists pre install pytest post,
      steps build = pre ++ install :: pytest :: post /\
      step_name install = Some "Install dependencies" /\
      runs_command "pip install .[test,demos]" install = true /\
      step_name pytest = Some "Run pytest tests" /\
      runs_command "py.test -ra tests/" pytest = true) /\
  (forall c, In c (instances notebooks) <->
     exists nb, c = [("notebook", nb)] /\ In nb all_notebooks /\
                ~ In nb (excluded_neo4j ++ excluded_not_on_ci)) /\
  NoDup (instances notebooks) /\
  List.length all_notebooks = 56 /\
  List.length (instances notebooks) = 43.
Proof.
  split; [reflexivity|]. split.
  { exists (firstn 3 build_steps), (nth 3 build_steps (Step None None None [] [] Success)),
      (nth 4 build_steps (Step None None None [] [] Success)), (skipn 5 build_steps).
    repeat split; reflexivity. }
  split.
  { intros c. rewrite notebooks_instances, in_map_iff. split.
    - intros (nb & <- & Hnb). apply filter_In in Hnb as [Hin Hex].
      exists nb. repeat split; [assumption|].
      intros Hx. apply mem_In in Hx. now rewrite Hx in Hex.
    - intros (nb & -> & Hin & Hex). exists nb. split; [reflexivity|].
      apply filter_In. split; [assumption|].
      destruct (mem nb (excluded_neo4j ++ excluded_not_on_ci)) eqn:E; [|reflexivity].
      apply mem_In in E. contradiction. }
  split.
  { apply (bool_decide_unpack _). vm_compute. exact I. }
  split; reflexivity.
Qed.

Lemma C2_witness :
  In [("notebook", "demos/basics/loading-numpy.ipynb")] (instances notebooks).
Proof.
  apply (proj1 (proj2 (proj2 C2_one_instance_per_version_and_per_runnable_notebook))).
  exists "demos/basics/loading-numpy.ipynb". split; [reflexivity|]. split.
  - apply mem_In. vm_compute. reflexivity.
  - intros H. apply mem_In in H. vm_compute in H. discriminate H.
Defined.

(** *** The exclusion list *)

(** C10, as stated, fails on its count: the second group of [exclude:]
    holds eight notebooks, not seven. *)
Lemma C10_second_group_is_not_seven :
  ~ ((forall nb, In nb (excluded_neo4j ++ excluded_not_on_ci) -> In nb all_notebooks) /\
     List.length excluded_neo4j = 5 /\
     List.length excluded_not_on_ci = 7).
Proof. intros (_ & _ & H). vm_compute in H. discriminate H. Qed.

(** C10, amended: every notebook under [exclude:] is in the matrix list, so
    each exclusion removes exactly one matrix entry; they are the five
    notebooks that need Neo4j and the eight that do not yet run on CI. *)
Theorem C10_every_exclusion_names_one_matrix_entry :
  exclude (job_strategy notebooks) =
    map exclude_entry (excluded_neo4j ++ excluded_not_on_ci) /\
  (forall nb, In nb (excluded_neo4j ++ excluded_not_on_ci) -> In nb all_notebooks) /\
  (forall entry, In entry (exclude (job_strategy notebooks)) ->
     List.length
       (List.filter (fun c => forallb (has_binding c) entry)
          (combinations (matrix (job_strategy notebooks)))) = 1) /\
  List.length excluded_neo4j = 5 /\
  List.length excluded_not_on_ci = 8 /\
  List.length (instances notebooks) = List.length all_notebooks - (5 + 8).
Proof.
  split; [reflexivity|]. split.
  { intros nb H. apply mem_In. apply mem_In in H.
    revert nb H.
    assert (forallb (fun nb => mem nb all_notebooks)
              (excluded_neo4j ++ excluded_not_on_ci) = true) as A
      by (vm_compute; reflexivity).
    rewrite forallb_forall in A.
    intros nb H. apply A. now apply mem_In. }
  split.
  { assert (forallb
              (fun entry =>
                 Nat.eqb
                   (List.length
                      (List.filter (fun c => forallb (has_binding c) entry)
                         (combinations (matrix (job_strategy notebooks))))) 1)
              (exclude (job_strategy notebooks)) = true) as A
      by (vm_compute; reflexivity).
    rewrite forallb_forall in A.
    intros entry H. apply Nat.eqb_eq. now apply A. }
  repeat split; reflexivity.
Qed.

Lemma C10_witness :
  In "demos/use-cases/hateful-twitters.ipynb" all_notebooks /\
  List.length
    (List.filter
       (fun c => forallb (has_binding c)
                   (exclude_entry "demos/use-cases/hateful-twitters.ipynb"))
       (combinations (matrix (job_strategy notebooks)))) = 1.
Proof.
  destruct C10_every_exclusion_names_one_matrix_entry as (_ & Hin & Hone & _).
  split.
  - apply Hin. apply mem_In. vm_compute. reflexivity.
  - apply Hone. apply in_map. apply mem_In. vm_compute. reflexivity.
Defined.

(** *** Upload steps *)

Lemma run_from_always fails ss i ok n s :
  nth_error ss n = Some s -> cond s = Always ->
  nth_error (run_from fails i ok ss) n = Some true.
Proof.
  revert i ok n. induction ss as [|s0 ss IH]; intros i ok [|n] H Hc; simpl in *;
    try discriminate.
  - injection H as ->. now rewrite Hc.
  - now apply IH.
Qed.

(** C7: the build job ends with the upload of the pytest results of its
    Python version, then the upload of coverage to Codecov; the notebooks
    job ends with the upload of the notebook that papermill executed in
    place.  Both artifact uploads stand under [always()], so they run
    whichever earlier steps failed. *)
Theorem C7_uploads_close_both_jobs :
  (exists pre artifact coverage,
     steps build = pre ++ [artifact; coverage] /\
     is_upload_artifact artifact = true /\ cond artifact = Always /\
     is_codecov_upload coverage = true /\
     (forall c v, In c (instances build) -> binding "python-version" c = Some v ->
        (exists pytest, In pytest pre /\
           In ("    -p no:cacheprovider --junitxml="
               +:+ q ("pytest-results-" +:+ v +:+ ".xml") +:+ " \")
              (map (render (context build c)) (run pytest))) /\
        render (context build c) <$> with_value "path" artifact
          = Some ("pytest-results-" +:+ v +:+ ".xml")) /\
     (forall fails, nth_error (run_steps fails build) (List.length pre) = Some true)) /\
  (exists pre artifact,
     steps notebooks = pre ++ [artifact] /\
     is_upload_artifact artifact = true /\ cond artifact = Always /\
     (forall c nb, In c (instances notebooks) -> binding "notebook" c = Some nb ->
        (exists papermill, In papermill pre /\
           In ("  " +:+ q nb +:+ " " +:+ q nb)
              (map (render (context notebooks c)) (run papermill))) /\
        render (context notebooks c) <$> with_value "path" artifact = Some nb) /\
     (forall fails, nth_error (run_steps fails notebooks) (List.length pre) = Some true)).
Proof.
  split.
  - exists (firstn 5 build_steps),
      (nth 5 build_steps (Step None None None [] [] Success)),
      (nth 6 build_steps (Step None None None [] [] Success)).
    split; [reflexivity|]. split; [reflexivity|]. split; [reflexivity|].
    split; [reflexivity|]. split.
    + intros c v Hc Hv.
      assert (c = [("python-version", v)] /\ mem v ["3.6"; "3.7"; "3.8"] = true)
        as [-> Hm].
      { cbn in Hc. destruct Hc as [<- | [<- | [<- | []]]];
          injection Hv as <-; split; reflexivity. }
      apply mem_In in Hm. cbn in Hm.
      destruct Hm as [<- | [<- | [<- | []]]]; (split; [|reflexivity]);
        exists (nth 4 build_steps (Step None None None [] [] Success));
        (split; [do 4 right; left; reflexivity|]);
        apply mem_In; vm_compute; reflexivity.
    + intros fails. unfold run_steps.
      now apply run_from_always with (s := nth 5 build_steps (Step None None None [] [] Success)).
  - exists (firstn 5 notebooks_steps),
      (nth 5 notebooks_steps (Step None None None [] [] Success)).
    split; [reflexivity|]. split; [reflexivity|]. split; [reflexivity|]. split.
    + assert (forallb
                (fun c =>
                   match binding "notebook" c with
                   | Some nb =>
                       String.eqb
                         (render (context notebooks c) "${{ matrix.notebook }}") nb
                       && mem ("  " +:+ q nb +:+ " " +:+ q nb)
                            (map (render (context notebooks c))
                               (run (nth 4 notebooks_steps
                                       (Step None None None [] [] Success))))
                   | None => false
                   end) (instances notebooks) = true) as A
        by (vm_compute; reflexivity).
      rewrite forallb_forall in A.
      intros c nb Hc Hb. specialize (A c Hc). rewrite Hb in A.
      apply andb_true_iff in A as [A1 A2].
      apply String.eqb_eq in A1. apply mem_In in A2. split.
      * exists (nth 4 notebooks_steps (Step None None None [] [] Success)).
        split; [do 4 right; left; reflexivity | exact A2].
      * cbn [with_value nth notebooks_steps with_ List.find fst snd String.eqb
               Ascii.eqb Bool.eqb fmap option_fmap option_map].
        now rewrite A1.
    + intros fails. unfold run_steps.
      now apply run_from_always with
        (s := nth 5 notebooks_steps (Step None None None [] [] Success)).
Qed.

Lemma C7_witness :
  (exists artifact,
     In artifact (steps build) /\
     render (context build [("python-version", "3.7")]) <$> with_value "path" artifact
       = Some "pytest-results-3.7.xml") /\
  (exists artifact,
     In artifact (steps notebooks) /\
     render (context notebooks [("notebook", "demos/basics/loading-numpy.ipynb")])
       <$> with_value "path" artifact
       = Some "demos/basics/loading-numpy.ipynb").
Proof.
  destruct C7_uploads_close_both_jobs
    as ((pre & a & c & E & _ & _ & _ & Hb & _) & (pre' & a' & E' & _ & _ & Hn & _)).
  split.
  - exists a. split.
    + rewrite E. apply in_or_app. right. left. reflexivity.
    + apply (Hb [("python-version", "3.7")] "3.7").
      * right. left. reflexivity.
      * reflexivity.
  - exists a'. split.
    + rewrite E'. apply in_or_app. right. left. reflexivity.
    + apply (Hn [("notebook", "demos/basics/loading-numpy.ipynb")]
                "demos/basics/loading-numpy.ipynb").
      * apply list_elem_of_In. apply (bool_decide_unpack _). vm_compute. exact I.
      * reflexivity.
Defined.

(** The coverage upload keeps the default condition: it runs exactly when
    no earlier step of the build job has failed. *)
Remark coverage_upload_needs_success fails :
  nth_error (run_steps fails build) 6
  = Some (negb (existsb fails (seq 0 6))).
Proof.
  unfold run_steps. cbn.
  destruct (fails 0), (fails 1), (fails 2), (fails 3), (fails 4), (fails 5);
    reflexivity.
Qed.

End WorkflowProperties.

(** ** The notebooks *)

Section NotebookProperties.
Import Notebooks Python Usage Py VersionCheck.

Lemma invoked_iff callee pos kws :
  invoked callee pos kws <-> existsb (has_shape pos kws) (all_calls callee) = true.
Proof.
  unfold invoked, all_calls, calls_of_notebook. rewrite existsb_exists. split.
  - intros (n & c & k & Hn & Hc & Hk & Hs). exists k. split; [|assumption].
    apply in_flat_map. exists n. split; [assumption|].
    apply in_flat_map. exists c. now split.
  - intros (k & Hk & Hs). apply in_flat_map in Hk as (n & Hn & Hk).
    apply in_flat_map in Hk as (c & Hc & Hk). now exists n, c, k.
Qed.

(** *** Execution counts *)

(** C8: in every notebook the code cells, taken in document order, carry
    the execution counts 1, 2, 3, ... without gap or repetition. *)
Theorem C8_execution_counts_follow_document_order (n : notebook) :
  In n demos ->
  Sorted lt (map position (code_cells n)) /\
  map execution_count (code_cells n)
    = map Some (seq 1 (List.length (code_cells n))).
Proof.
  intros H. cbn in H.
  destruct H as [<- | [<- | [<- | [<- | []]]]]; split;
    try (apply (bool_decide_unpack _); vm_compute; exact I);
    vm_compute; reflexivity.
Qed.

Lemma C8_witness :
  map execution_count (code_cells gcn_supervised_graph_classification)
    = map Some (seq 1 18).
Proof.
  apply (C8_execution_counts_follow_document_order gcn_supervised_graph_classification).
  right. right. right. left. reflexivity.
Defined.

(** The counts kept inside the outputs are another matter: in the graph
    classification notebook three [execute_result] outputs still carry the
    count of an earlier run. *)
Remark output_counts_of_graph_classification :
  flat_map (fun c => match execution_count c with
                     | Some k => map (fun o => (k, o)) (output_counts c)
                     | None => []
                     end)
    (code_cells gcn_supervised_graph_classification)
  = [(7, 6); (8, 7); (18, 14)].
Proof. vm_compute. reflexivity. Qed.

(** *** The version check *)

(** C9, as stated, fails on "exactly 1.2.1": the cell compares nothing
    itself, it hands ["1.2.1"] to the utility, and where the utility accepts
    another installed version the cell lets it pass. *)
Lemma C9_another_version_passes_where_the_utility_accepts :
  ~ (forall sg v,
       version sg = Some v -> returns (version_check sg) -> v = "1.2.1").
Proof.
  intros H.
  specialize (H (Installation (Some "1.3.0") (Some (fun _ => Return tt)))
                "1.3.0" eq_refl I).
  discriminate H.
Qed.

(** C9, amended: in every notebook the first cell that imports the library
    is the cell tagged VersionCheck, which right after the import calls
    [sg.utils.validate_notebook_version("1.2.1")] and leaves the verdict to
    that utility: the cell goes on exactly when the utility exists and
    returns, and a [ValueError] of the utility reaches the user as it is.
    When the installation has no such utility, the cell raises a
    [ValueError] whose message names the installed version (read from
    [sg.__version__]). *)
Theorem C9_version_check_before_any_use (n : notebook) (sg : installation) :
  In n demos ->
  (exists before check after,
     code_cells n = before ++ check :: after /\
     forallb (fun c => negb (imports "stellargraph" (source c))) before = true /\
     In "VersionCheck" (tags check) /\
     source check = version_check_source) /\
  calls_in "sg.utils.validate_notebook_version" version_check_source = [Call 1 []] /\
  (forall v, validate_notebook_version sg = None -> version sg = Some v ->
     version_check sg = Raise (ValueError (message v)) /\
     contains v (message v) = true) /\
  (returns (version_check sg) <->
   exists validate, validate_notebook_version sg = Some validate /\
                    returns (validate "1.2.1")) /\
  (forall validate msg,
     validate_notebook_version sg = Some validate ->
     validate "1.2.1" = Raise (ValueError msg) ->
     version_check sg = Raise (ValueError msg)).
Proof.
  intros H. split; [|split; [|split; [|split]]].
  - cbn in H.
    destruct H as [<- | [<- | [<- | [<- | []]]]];
      match goal with
      | |- context [code_cells ?n] =>
          exists (firstn 1 (code_cells n)),
            (nth 1 (code_cells n) (Cell 0 None [] [] [])),
            (skipn 2 (code_cells n))
      end;
      (split; [reflexivity|]); (split; [vm_compute; reflexivity|]);
      (split; [left; reflexivity | reflexivity]).
  - vm_compute. reflexivity.
  - intros v E V. unfold version_check, lookup_validate, lookup_version.
    rewrite E, V. cbn.
    split; [reflexivity|]. unfold message. apply contains_middle.
  - unfold version_check, lookup_validate, lookup_version.
    destruct (validate_notebook_version sg) as [validate|];
      cbn [bind except_AttributeError].
    + split.
      * intros R. exists validate. split; [reflexivity|].
        destruct (validate "1.2.1") as [|[]]; cbn in *; auto.
        now destruct (version sg).
      * intros (v & [= <-] & R).
        destruct (validate "1.2.1") as [|[]]; cbn in *; auto; contradiction.
    + split.
      * intros R. now destruct (version sg).
      * intros (v & [=] & _).
  - intros validate msg E R. unfold version_check, lookup_validate.
    rewrite E. cbn [bind]. now rewrite R.
Qed.

Lemma C9_witness :
  version_check (Installation (Some "1.0.0") None)
  = Raise (ValueError
      "This notebook requires StellarGraph version 1.2.1, but a different version 1.0.0 is installed.  Please see <https://github.com/stellargraph/stellargraph/issues/1172>.").
Proof.
  apply (proj1 (proj2 (proj2
           (C9_version_check_before_any_use loading_numpy
              (Installation (Some "1.0.0") None)
              (or_introl eq_refl)))) "1.0.0").
  - reflexivity.
  - reflexivity.
Defined.

(** *** Call shapes *)

(** C3, as stated, fails: no cell calls [StellarGraph.from_networkx] with
    the three keywords [node_features], [edge_weight_attr] and
    [node_type_attr] together. *)
Lemma C3_from_networkx_never_takes_the_three_keywords :
  ~ (invoked "StellarGraph" 2 ["node_type_default"; "edge_type_default"] /\
     invoked "StellarGraph.from_networkx" 1
       ["node_features"; "edge_weight_attr"; "node_type_attr"] /\
     invoked "IndexedArray" 1 ["index"]).
Proof.
  intros (_ & H & _). apply invoked_iff in H. vm_compute in H. discriminate H.
Qed.

(** C3, amended: some cell calls [StellarGraph(features, edges,
    node_type_default=..., edge_type_default=...)] and some cell calls
    [IndexedArray(values, index=...)] with exactly those keywords;
    [StellarGraph.from_networkx(graph, ...)] is called with each of
    [node_features], [edge_weight_attr] and [node_type_attr], in separate
    calls ([node_type_attr] next to [node_type_default]), and never with the
    three together. *)
Theorem C3_call_shapes_of_the_notebooks :
  invoked "StellarGraph" 2 ["node_type_default"; "edge_type_default"] /\
  invoked "IndexedArray" 1 ["index"] /\
  invoked "StellarGraph.from_networkx" 1 ["node_features"] /\
  invoked "StellarGraph.from_networkx" 1 ["edge_weight_attr"] /\
  invoked "StellarGraph.from_networkx" 1 ["node_type_default"; "node_type_attr"] /\
  forall pos,
    ~ invoked "StellarGraph.from_networkx" pos
        ["node_features"; "edge_weight_attr"; "node_type_attr"].
Proof.
  repeat split; try (apply invoked_iff; vm_compute; reflexivity).
  intros pos H. apply invoked_iff in H.
  assert (existsb
            (fun k => same_keywords (keywords k)
                        ["node_features"; "edge_weight_attr"; "node_type_attr"])
            (all_calls "StellarGraph.from_networkx") = false) as A
    by (vm_compute; reflexivity).
  apply existsb_exists in H as (k & Hk & Hs).
  unfold has_shape in Hs. apply andb_true_iff in Hs as [_ Hs].
  assert (existsb
            (fun k => same_keywords (keywords k)
                        ["node_features"; "edge_weight_attr"; "node_type_attr"])
            (all_calls "StellarGraph.from_networkx") = true) as B
    by (apply existsb_exists; exists k; split; assumption).
  rewrite A in B. discriminate B.
Qed.

End NotebookProperties.

(** ** The library model *)

Section LibraryProperties.
Import Py Library.

Lemma NoDup_bind_inv {A B : Type} (f : A -> list B) (l : list A) :
  NoDup (l ≫= f) ->
  (forall x, x ∈ l -> NoDup (f x)) /\
  (forall x1 x2 y, x1 ∈ l -> x2 ∈ l -> y ∈ f x1 -> y ∈ f x2 -> x1 = x2).
Proof.
  induction l as [|a l IH]; intros H.
  - split; intros; exfalso; eapply not_elem_of_nil; eassumption.
  - change ((a :: l) ≫= f) with (f a ++ (l ≫= f)) in H.
    apply NoDup_app in H as (Ha & Hdis & Hl).
    destruct (IH Hl) as [IH1 IH2]. split.
    + intros x Hx. apply elem_of_cons in Hx as [-> | Hx]; auto.
    + intros x1 x2 y H1 H2 Hy1 Hy2.
      apply elem_of_cons in H1 as [-> | H1];
        apply elem_of_cons in H2 as [-> | H2]; try reflexivity.
      * exfalso. apply (Hdis y Hy1). apply list_elem_of_bind. eauto.
      * exfalso. apply (Hdis y Hy2). apply list_elem_of_bind. eauto.
      * eauto.
Qed.

Context {feature : Type}.

(** The uniqueness check of the constructor, in terms of the dictionary. *)
Lemma node_ids_NoDup (d : gmap string (IndexedArray feature)) :
  NoDup (node_ids d) <->
  (forall t a, d !! t = Some a -> NoDup (index a)) /\ ~ shared_between_types d.
Proof.
  unfold node_ids. split.
  - intros H. apply NoDup_bind_inv in H as [H1 H2]. split.
    + intros t a Hta. apply (H1 (t, a)). now apply elem_of_map_to_list.
    + intros (t1 & t2 & a1 & a2 & id & Hne & L1 & L2 & I1 & I2).
      apply Hne.
      assert ((t1, a1) = (t2, a2)) as E
        by (apply (H2 _ _ id); try (now apply elem_of_map_to_list); assumption).
      now injection E.
  - intros [H1 H2]. apply NoDup_bind.
    + intros [t1 a1] [t2 a2] id Hx1 Hx2 I1 I2.
      apply elem_of_map_to_list in Hx1, Hx2.
      destruct (decide (t1 = t2)) as [-> | Hne].
      * rewrite Hx1 in Hx2. now injection Hx2 as ->.
      * exfalso. apply H2. now exists t1, t2, a1, a2, id.
    + intros [t a] Hx. apply elem_of_map_to_list in Hx. now apply (H1 t).
    + apply NoDup_map_to_list.
Qed.

(** C1: a dictionary of node types in which some identifier stands in the
    index of two types makes the constructor raise; when no identifier is
    shared between types (and the arguments are valid otherwise) the
    constructor returns a graph. *)
Theorem C1_shared_identifiers_raise
  (d : gmap string (IndexedArray feature)) (es : list edge)
  (node_type_default edge_type_default : option string) :
  (shared_between_types d ->
   raises (StellarGraph_init (ByType d) es node_type_default edge_type_default)) /\
  (otherwise_valid d es -> ~ shared_between_types d ->
   returns (StellarGraph_init (ByType d) es node_type_default edge_type_default)).
Proof.
  unfold StellarGraph_init. cbn [typed_nodes]. split.
  - intros Hs. destruct (decide (NoDup (node_ids d))) as [Hn | Hn].
    + apply node_ids_NoDup in Hn as [_ Hn]. contradiction.
    + exact I.
  - intros [Hv He] Hs. destruct (decide (NoDup (node_ids d))) as [Hn | Hn].
    + assert (forallb (known (node_ids d)) es = true) as ->; [|exact I].
      apply forallb_forall. intros e Hin. apply list_elem_of_In in Hin.
      destruct (He e Hin) as [S T]. unfold known.
      now rewrite !bool_decide_eq_true_2.
    + exfalso. apply Hn. now apply node_ids_NoDup.
Qed.

Lemma row_of_zip (idx : list node_id) (vals : list (list feature)) i id :
  List.length idx = List.length vals -> NoDup idx -> idx !! i = Some id ->
  snd <$> List.find (fun r => bool_decide (fst r = id)) (zip idx vals) = vals !! i.
Proof.
  revert vals i. induction idx as [|x idx IH]; intros [|v vals] i L N H;
    try discriminate.
  apply NoDup_cons in N as [Nx N]. destruct i as [|i]; cbn in *.
  - injection H as ->. now rewrite bool_decide_eq_true_2.
  - rewrite bool_decide_eq_false_2.
    + apply IH; [lia | assumption | assumption].
    + intros ->. apply Nx. eapply list_elem_of_lookup_2. eassumption.
Qed.

(** C5: [IndexedArray(values, index=...)] is accepted exactly when the
    index has one element per row of the values; the array then pairs row
    [i] with the [i]-th element of the index, and (identifiers being
    distinct) the row found under that identifier is row [i]. *)
Theorem C5_index_labels_the_rows (vals : list (list feature)) (idx : list node_id) :
  (returns (IndexedArray_init (Some vals) (Some idx))
   <-> List.length idx = List.length vals) /\
  (forall a, IndexedArray_init (Some vals) (Some idx) = Return a ->
     values a = vals /\ index a = idx /\
     (forall i row, vals !! i = Some row ->
        exists id, idx !! i = Some id /\ labelled_rows a !! i = Some (id, row)) /\
     (forall i id, NoDup idx -> idx !! i = Some id -> row_of a id = vals !! i)).
Proof.
  unfold IndexedArray_init.
  destruct (decide (List.length idx = List.length vals)) as [L | L]; split.
  - split; [intros _; exact L | intros _; exact I].
  - intros a [= <-]. cbn. split; [reflexivity|]. split; [reflexivity|]. split.
    + intros i row Hr.
      destruct (idx !! i) as [id|] eqn:Hi.
      * exists id. split; [reflexivity|]. unfold labelled_rows. cbn.
        apply lookup_zip_with_Some. now exists id, row.
      * apply lookup_ge_None in Hi. apply lookup_lt_Some in Hr. lia.
    + intros i id N Hi. unfold row_of, labelled_rows. cbn.
      now apply row_of_zip.
  - split; [intros [] | intros H; contradiction].
  - intros a [=].
Qed.

Lemma tally_repeat {A : Type} `{EqDecision A} (x : A) (k : nat) :
  tally (repeat x (S k)) = [(x, S k)].
Proof.
  induction k as [|k IH]; [reflexivity|].
  change (repeat x (S (S k))) with (x :: repeat x (S k)).
  cbn [tally]. rewrite IH. cbn. now rewrite !bool_decide_eq_true_2.
Qed.

Lemma node_ids_singleton (nt : string) (a : IndexedArray feature) :
  node_ids ({[ nt := a ]} : gmap string (IndexedArray feature)) = index a.
Proof.
  unfold node_ids. rewrite map_to_list_singleton. cbn. apply app_nil_r.
Qed.

Lemma triples_of_one_type (nt : string) (a : IndexedArray feature)
  (registered : gmap string (list edge)) (es : list edge) :
  forallb (known (index a)) es = true ->
  triples (MkStellarGraph {[ nt := a ]} registered) es
  = repeat (nt, nt) (List.length es).
Proof.
  induction es as [|e es IH]; intros K; [reflexivity|].
  cbn [forallb] in K. apply andb_true_iff in K as [Ke K].
  unfold known in Ke. apply andb_true_iff in Ke as [Ks Kt].
  apply bool_decide_eq_true_1 in Ks, Kt.
  unfold triples in *. cbn [omap list_omap List.length repeat].
  unfold node_type_of at 1 2. cbn [nodes].
  rewrite map_to_list_singleton. cbn [List.find snd fst].
  rewrite !bool_decide_eq_true_2 by assumption. cbn.
  f_equal. now apply IH.
Qed.

(** C6, amended: a graph built from one feature array and one edge set
    that is not empty reports exactly one node type and exactly one edge
    type, named by [node_type_default] and [edge_type_default], which are
    ["default"] when not given; the one line below "Edge types:" joins the
    node type to itself and counts all the edges. *)
Theorem C6_one_array_and_its_edges_give_one_type_of_each
  (n : node_data feature) (es : list edge)
  (node_type_default edge_type_default : option string)
  (g : StellarGraph feature) :
  (forall d, n <> ByType d) ->
  es <> [] ->
  StellarGraph_init n es node_type_default edge_type_default = Return g ->
  reported_node_types (info g) = [default "default" node_type_default] /\
  reported_edge_types (info g) = [default "default" edge_type_default] /\
  edge_types (info g)
  = [ (default "default" node_type_default, default "default" edge_type_default,
       default "default" node_type_default, List.length es) ].
Proof.
  intros Hn He. unfold StellarGraph_init.
  destruct (decide (NoDup _)) as [_|_]; [|discriminate].
  destruct (forallb _ es) eqn:K; [|discriminate].
  intros [= <-].
  assert (exists a, typed_nodes (default "default" node_type_default) n
                    = {[ default "default" node_type_default := a ]}) as [a Ea].
  { destruct n as [v | a | d]; cbn [typed_nodes]; eauto. now destruct (Hn d). }
  rewrite Ea in *. rewrite node_ids_singleton in K.
  assert (edge_types
            (info (MkStellarGraph {[ default "default" node_type_default := a ]}
                     {[ default "default" edge_type_default := es ]}))
          = [ (default "default" node_type_default, default "default" edge_type_default,
               default "default" node_type_default, List.length es) ]) as E.
  { unfold info. cbn [edge_types edges].
    rewrite (map_to_list_singleton (default "default" edge_type_default) es).
    cbn [flat_map fst snd]. rewrite app_nil_r.
    rewrite (triples_of_one_type _ _ _ _ K).
    destruct es as [|e es]; [contradiction|].
    cbn [List.length]. rewrite tally_repeat. reflexivity. }
  split; [|split; [|exact E]].
  - unfold reported_node_types, info. cbn [node_types nodes].
    now rewrite map_to_list_singleton.
  - unfold reported_edge_types. now rewrite E.
Qed.

End LibraryProperties.

Section LibraryWitnesses.
Import Py Library LoadingNumpy.

Lemma C1_witness :
  raises (StellarGraph_init
            (ByType (<["foo" := MkIndexedArray [[]] [IdStr "b"]]>
                    (<["bar" := MkIndexedArray bar_features (map IdStr ["b"; "c"; "d"])]> ∅)))
            square_edges None None) /\
  returns (StellarGraph_init
             (ByType (<["foo" := MkIndexedArray [[]] [IdStr "a"]]>
                     (<["bar" := MkIndexedArray bar_features (map IdStr ["b"; "c"; "d"])]> ∅)))
             square_edges None None).
Proof.
  split.
  - apply C1_shared_identifiers_raise.
    exists "foo", "bar", (MkIndexedArray [[]] [IdStr "b"]),
      (MkIndexedArray bar_features (map IdStr ["b"; "c"; "d"])), (IdStr "b").
    split; [discriminate|]. split; [reflexivity|]. split; [reflexivity|].
    split; apply (bool_decide_unpack _); vm_compute; exact I.
  - apply C1_shared_identifiers_raise.
    + split.
      * apply map_Forall_insert_2; [apply (bool_decide_unpack _); vm_compute; exact I|].
        apply map_Forall_insert_2; [apply (bool_decide_unpack _); vm_compute; exact I|].
        apply map_Forall_empty.
      * apply Forall_forall. apply (bool_decide_unpack _). vm_compute. exact I.
    + apply node_ids_NoDup. apply (bool_decide_unpack _). vm_compute. exact I.
Defined.

Lemma C5_witness :
  labelled_rows (MkIndexedArray feature_array (map IdStr ["a"; "b"; "c"; "d"])) !! 2
  = Some (IdStr "c", ["3.0"; "0.0"]).
Proof.
  destruct (proj2 (C5_index_labels_the_rows feature_array (map IdStr ["a"; "b"; "c"; "d"]))
              (MkIndexedArray feature_array (map IdStr ["a"; "b"; "c"; "d"])) eq_refl)
    as (_ & _ & H & _).
  destruct (H 2 ["3.0"; "0.0"] eq_refl) as (id & Hid & Hrow).
  injection Hid as <-. exact Hrow.
Defined.

Lemma C6_witness :
  reported_node_types (info
    (MkStellarGraph {[ "corner" := MkIndexedArray feature_array (range_index 4) ]}
                    {[ "line" := square_numeric_edges ]}))
    = ["corner"] /\
  reported_edge_types (info
    (MkStellarGraph {[ "corner" := MkIndexedArray feature_array (range_index 4) ]}
                    {[ "line" := square_numeric_edges ]}))
    = ["line"] /\
  edge_types (info
    (MkStellarGraph {[ "corner" := MkIndexedArray feature_array (range_index 4) ]}
                    {[ "line" := square_numeric_edges ]}))
    = [("corner", "line", "corner", 5)].
Proof.
  apply (C6_one_array_and_its_edges_give_one_type_of_each
           (BareArray feature_array) square_numeric_edges
           (Some "corner") (Some "line")).
  - discriminate.
  - discriminate.
  - reflexivity.
Defined.

(** C6, as stated, fails for an empty edge set: the graph is built, and its
    summary lists no edge type. *)
Lemma C6_no_edges_no_edge_type :
  ~ (forall (n : node_data string) (es : list edge)
       (node_type_default edge_type_default : option string)
       (g : StellarGraph string),
       (forall d, n <> ByType d) ->
       StellarGraph_init n es node_type_default edge_type_default = Return g ->
       reported_node_types (info g) = [default "default" node_type_default] /\
       reported_edge_types (info g) = [default "default" edge_type_default]).
Proof.
  intros H.
  destruct (H (BareArray feature_array) [] None None
              (MkStellarGraph {[ "default" := MkIndexedArray feature_array (range_index 4) ]}
                              {[ "default" := [] ]}))
    as [_ E].
  - discriminate.
  - reflexivity.
  - vm_compute in E. discriminate E.
Qed.

(** The model prints what the notebook recorded for cells 8, 9, 13 and 20
    (node types and lines come in the order of the dictionaries; [info()]
    itself sorts them by size). *)
Example printed_square_numeric :
  printed square_numeric
  = Return (Summary 4 5 [("default", 4)] [("default", "default", "default", 5)]).
Proof. vm_compute. reflexivity. Qed.

Example printed_square_numeric_named :
  printed square_numeric_named
  = Return (Summary 4 5 [("corner", 4)] [("corner", "line", "corner", 5)]).
Proof. vm_compute. reflexivity. Qed.

Example printed_square_named :
  printed square_named
  = Return (Summary 4 5 [("corner", 4)] [("corner", "line", "corner", 5)]).
Proof. vm_compute. reflexivity. Qed.

Example printed_square_foo_and_bar :
  printed square_foo_and_bar
  = Return (Summary 4 5 [("foo", 1); ("bar", 3)]
              [ ("bar", "default", "bar", 2); ("bar", "default", "foo", 1);
                ("foo", "default", "bar", 2) ]).
Proof. vm_compute. reflexivity. Qed.

(** Cell 22, once uncommented. *)
Example square_foo_overlap_is_refused :
  raises square_foo_overlap_and_bar.
Proof. vm_compute. exact I. Qed.

End LibraryWitnesses.

(** ** Loading Cora in batches *)

Section CoraProperties.
Import Py Cora Notebooks.

Lemma range_from_lookup fuel start stop step i :
  0 < step -> stop - start <= fuel ->
  range_from fuel start stop step !! i
  = if decide (start + i * step < stop) then Some (start + i * step) else None.
Proof.
  intros Hs. revert start i.
  induction fuel as [|fuel IH]; intros start i Hf; cbn [range_from].
  - case_decide; [nia | reflexivity].
  - destruct (Nat.ltb_spec start stop) as [Hlt | Hge].
    + destruct i as [|i]; cbn.
      * case_decide; [f_equal; lia | lia].
      * rewrite IH by lia.
        repeat case_decide; try (f_equal; lia); exfalso; lia.
    + case_decide; [nia | reflexivity].
Qed.

Lemma range_from_concat {A : Type} (table : list A) fuel start step :
  0 < step -> start <= List.length table -> List.length table - start <= fuel ->
  concat (map (fun s => iloc table s (s + step))
            (range_from fuel start (List.length table) step))
  = skipn start table.
Proof.
  intros Hs. revert start.
  induction fuel as [|fuel IH]; intros start Hle Hf; cbn [range_from].
  - cbn. symmetry. apply skipn_all2. lia.
  - destruct (Nat.ltb_spec start (List.length table)) as [Hlt | Hge].
    + cbn [map concat]. unfold iloc at 1.
      replace (start + step - start) with step by lia.
      destruct (Nat.le_gt_cases (start + step) (List.length table)) as [Hin | Hout].
      * rewrite IH by lia.
        replace (start + step) with (step + start) by lia.
        rewrite <- skipn_skipn. apply firstn_skipn.
      * assert (range_from fuel (start + step) (List.length table) step = []) as ->.
        { destruct fuel; cbn [range_from]; [reflexivity|].
          destruct (Nat.ltb_spec (start + step) (List.length table)); [lia | reflexivity]. }
        cbn. rewrite app_nil_r. apply firstn_all2.
        rewrite length_skipn. lia.
    + cbn. symmetry. apply skipn_all2. lia.
Qed.

Lemma load_in_batches_lookup {A : Type}
  (batch_len : nat) (table : list A) (batches : list (list A)) (i : nat) :
  load_in_batches batch_len table = Return batches ->
  batches !! i
  = if decide (i * batch_len < List.length table)
    then Some (firstn batch_len (skipn (i * batch_len) table))
    else None.
Proof.
  unfold load_in_batches, range.
  destruct (Nat.eqb_spec batch_len 0) as [-> | Hne]; [discriminate|].
  cbn [bind]. intros [= <-].
  change (map ?f ?l !! i) with ((f <$> l) !! i).
  rewrite list_lookup_fmap, range_from_lookup by lia. cbn [Nat.add].
  case_decide; [|reflexivity]. cbn. unfold iloc.
  do 2 f_equal. lia.
Qed.

(** X2: batch number [i] of the loading loop exists exactly when
    [i * batch_len] is a row of the table, and it holds the [batch_len]
    rows from there on (fewer at the end of the table). *)
Theorem batch_i_is_the_ith_slice {A : Type}
  (batch_len : nat) (table : list A) (batches : list (list A)) (i : nat) :
  load_in_batches batch_len table = Return batches ->
  batches !! i
  = if decide (i * batch_len < List.length table)
    then Some (firstn batch_len (skipn (i * batch_len) table))
    else None.
Proof. apply load_in_batches_lookup. Qed.

Lemma batch_i_witness :
  [ ["r0"; "r1"; "r2"]; ["r3"; "r4"; "r5"]; ["r6"] ] !! 2 = Some ["r6"].
Proof.
  apply (batch_i_is_the_ith_slice 3 ["r0"; "r1"; "r2"; "r3"; "r4"; "r5"; "r6"]
           [ ["r0"; "r1"; "r2"]; ["r3"; "r4"; "r5"]; ["r6"] ] 2).
  reflexivity.
Defined.

(** X1: with a positive batch length the loading loop hands every row of
    the table to the database exactly once and in order, in batches that are
    never empty and never longer than the batch length; with a batch length
    of 0 it raises before anything is loaded. *)
Theorem batches_cover_the_table {A : Type} (batch_len : nat) (table : list A) :
  (batch_len = 0 -> raises (load_in_batches batch_len table)) /\
  (0 < batch_len ->
   exists batches,
     load_in_batches batch_len table = Return batches /\
     concat batches = table /\
     Forall (fun b => 0 < List.length b <= batch_len) batches).
Proof.
  split.
  - intros ->. exact I.
  - intros Hs.
    assert (exists batches, load_in_batches batch_len table = Return batches)
      as [batches E].
    { unfold load_in_batches, range.
      destruct (Nat.eqb_spec batch_len 0); [lia | cbn; eauto]. }
    exists batches. split; [exact E|]. split.
    + revert E. unfold load_in_batches, range.
      destruct (Nat.eqb_spec batch_len 0); [lia|]. cbn [bind]. intros [= <-].
      rewrite range_from_concat by lia. reflexivity.
    + apply Forall_lookup. intros i b Hb.
      rewrite (load_in_batches_lookup batch_len table batches i E) in Hb.
      case_decide; [|discriminate]. injection Hb as <-.
      rewrite length_firstn, length_skipn. nia.
Qed.

Lemma batches_cover_witness :
  exists batches,
    load_in_batches 500 (seq 0 1203) = Return batches /\
    concat batches = seq 0 1203 /\
    Forall (fun b => 0 < List.length b <= 500) batches.
Proof.
  apply (proj2 (batches_cover_the_table 500 (seq 0 1203))). lia.
Defined.

(** *** Column names and record fields *)

Lemma decimal_inj n m : decimal n = decimal m -> n = m.
Proof.
  unfold decimal. intros H.
  assert (Some (Nat.to_uint n) = Some (Nat.to_uint m)) as E
    by (rewrite <- !NilEmpty.usu; now rewrite H).
  injection E as E. apply (f_equal Nat.of_uint) in E.
  now rewrite !DecimalNat.Unsigned.of_to in E.
Qed.

Lemma feature_name_shape s n :
  In s (feature_names n) -> exists ii, ii < n /\ s = "w_" +:+ decimal ii.
Proof.
  unfold feature_names. rewrite in_map_iff.
  intros (ii & <- & Hin). apply in_seq in Hin. exists ii. split; [lia | reflexivity].
Qed.

Lemma feature_names_NoDup n : NoDup (feature_names n).
Proof.
  unfold feature_names. generalize 0 as a.
  induction n as [|n IH]; intros a; cbn [seq map]; constructor.
  - rewrite list_elem_of_In, in_map_iff. intros (ii & E & Hin).
    apply in_seq in Hin. cbn in E. injection E as E.
    apply decimal_inj in E. lia.
  - apply IH.
Qed.

Lemma not_a_feature_name s n :
  starts_with "w_" s = false -> mem s (feature_names n) = false.
Proof.
  intros H. destruct (mem s (feature_names n)) eqn:E; [|reflexivity].
  apply mem_In, feature_name_shape in E as (ii & _ & ->).
  now rewrite starts_with_append in H.
Qed.

(** X3: whatever the number of word columns, the names [w_0], [w_1], ...
    and [subject] given to [read_csv] are pairwise distinct, one per
    column. *)
Theorem column_names_are_distinct (n : nat) :
  NoDup (column_names n) /\ List.length (column_names n) = S n.
Proof.
  unfold column_names. split.
  - apply NoDup_app. split; [apply feature_names_NoDup|]. split.
    + intros s Hs Hsub. apply list_elem_of_In in Hs.
      apply list_elem_of_singleton in Hsub. subst s.
      apply mem_In in Hs. now rewrite not_a_feature_name in Hs.
    + apply NoDup_singleton.
  - rewrite length_app. unfold feature_names.
    rewrite length_map, length_seq. cbn. lia.
Qed.

Lemma all_present_app_l labels rest :
  all_present labels (labels ++ rest) = true.
Proof.
  unfold all_present. apply forallb_forall. intros l Hl.
  apply mem_In, in_or_app. now left.
Qed.

Lemma filter_out_own labels :
  List.filter (fun c => negb (mem c labels)) labels = [].
Proof.
  assert (forall l, incl l labels ->
            List.filter (fun c => negb (mem c labels)) l = []) as G.
  { induction l as [|x l IH]; intros Hi; [reflexivity|]. cbn.
    assert (mem x labels = true) as -> by (apply mem_In, Hi; now left).
    cbn. apply IH. intros y Hy. apply Hi. now right. }
  apply G, incl_refl.
Qed.

Lemma node_list_columns_eq n :
  node_list_columns n = Return ["subject"; "features"; "id"].
Proof.
  unfold node_list_columns, select, drop_columns, column_names.
  rewrite all_present_app_l. cbn [bind].
  assert (assign (feature_names n ++ ["subject"]) "features"
          = feature_names n ++ ["subject"; "features"]) as ->.
  { unfold assign.
    assert (mem "features" (feature_names n ++ ["subject"]) = false) as ->.
    { unfold mem. rewrite existsb_app. fold (mem "features" (feature_names n)).
      now rewrite not_a_feature_name. }
    now rewrite <- app_assoc. }
  rewrite all_present_app_l. cbn [bind].
  rewrite List.filter_app, filter_out_own. cbn [List.filter app].
  now rewrite !not_a_feature_name.
Qed.

(** X4: after the preprocessing cells the node records have exactly the
    fields [subject], [features] and [id], whatever the number of word
    columns, and the edge records the fields [target], [source] and
    [label]; every field that a cell of the notebook reads from [node] or
    from [edge] in its query is among them. *)
Theorem records_carry_the_fields_the_queries_read (n : nat) :
  node_list_columns n = Return ["subject"; "features"; "id"] /\
  edge_list_columns = ["target"; "source"; "label"] /\
  (forall c f, In c (code_cells load_cora_into_neo4j) ->
     In f (fields_read "node" (source c)) -> In f ["subject"; "features"; "id"]) /\
  (forall c f, In c (code_cells load_cora_into_neo4j) ->
     In f (fields_read "edge" (source c)) -> In f edge_list_columns) /\
  flat_map (fun c => fields_read "node" (source c)) (code_cells load_cora_into_neo4j)
    = ["id"; "subject"; "features"] /\
  flat_map (fun c => fields_read "edge" (source c)) (code_cells load_cora_into_neo4j)
    = ["source"; "target"].
Proof.
  split; [apply node_list_columns_eq|]. split; [reflexivity|].
  assert (flat_map (fun c => fields_read "node" (source c))
            (code_cells load_cora_into_neo4j) = ["id"; "subject"; "features"]) as N
    by (vm_compute; reflexivity).
  assert (flat_map (fun c => fields_read "edge" (source c))
            (code_cells load_cora_into_neo4j) = ["source"; "target"]) as E
    by (vm_compute; reflexivity).
  split; [|split; [|split; assumption]].
  - intros c f Hc Hf.
    assert (In f ["id"; "subject"; "features"]) as Hin
      by (rewrite <- N; apply in_flat_map; exists c; split; assumption).
    cbn in Hin. cbn. intuition.
  - intros c f Hc Hf.
    assert (In f ["source"; "target"]) as Hin
      by (rewrite <- E; apply in_flat_map; exists c; split; assumption).
    cbn in Hin. cbn. intuition.
Qed.

Lemma records_fields_witness :
  In "features" ["subject"; "features"; "id"].
Proof.
  destruct (records_carry_the_fields_the_queries_read 1433) as (_ & _ & H & _).
  apply (H (nth 12 (code_cells load_cora_into_neo4j) (Cell 0 None [] [] []))).
  - apply nth_In. vm_compute. lia.
  - apply mem_In. vm_compute. reflexivity.
Defined.

End CoraProperties.

(** ** Features computed from node identifiers *)

Section NetworkxDemoProperties.
Import Py NetworkxDemo.

(** X5: [compute_features] returns only for a string identifier of
    exactly one character, with that character's code point and the
    constant 1 as the two features; for a string of any other length and
    for an integer identifier [ord] raises [TypeError]. *)
Theorem compute_features_needs_one_character (node_id : node_key) :
  (forall v, compute_features node_id = Return v ->
     exists c, node_id = KStr [c] /\ v = [c; 1%N]) /\
  (forall c, node_id = KStr [c] -> compute_features node_id = Return [c; 1%N]) /\
  (forall s, node_id = KStr s -> List.length s <> 1 ->
     compute_features node_id
     = Raise (OtherError "TypeError"
                ("ord() expected a character, but string of length "
                 +:+ Cora.decimal (List.length s) +:+ " found"))) /\
  (forall n, node_id = KInt n ->
     compute_features node_id
     = Raise (OtherError "TypeError"
                "ord() expected string of length 1, but int found")).
Proof.
  split; [|split; [|split]].
  - intros v. destruct node_id as [[|c [|c' s]] | n]; cbn; try discriminate.
    intros [= <-]. now exists c.
  - intros c ->. reflexivity.
  - intros s -> L. destruct s as [|c [|c' s]]; try reflexivity.
    now destruct L.
  - intros n ->. reflexivity.
Qed.

Lemma compute_features_witness :
  compute_features (KStr [8364%N]) = Return [8364%N; 1%N] /\
  compute_features (text "node-1")
  = Raise (OtherError "TypeError"
             "ord() expected a character, but string of length 6 found").
Proof.
  split.
  - apply (proj1 (proj2 (compute_features_needs_one_character (KStr [8364%N]))) 8364%N).
    reflexivity.
  - apply (proj1 (proj2 (proj2 (compute_features_needs_one_character (text "node-1"))))
             (map N_of_ascii (list_ascii_of_string "node-1"))).
    + reflexivity.
    + cbn. lia.
Defined.

(** The loop over the square's nodes gives what the notebook shows for
    [a] and [c]: [[97, 1]] and [[99, 1]]. *)
Example features_of_the_square :
  assign_features [text "a"; text "b"; text "c"; text "d"]
  = Return [ (text "a", [97; 1]%N); (text "b", [98; 1]%N);
             (text "c", [99; 1]%N); (text "d", [100; 1]%N) ].
Proof. reflexivity. Qed.

End NetworkxDemoProperties.

(** ** Prefixed identifiers *)

Section RelabelProperties.
Import Py Library Relabel.
Context {feature : Type}.

Lemma append_inj_r (p a b : string) : p +:+ a = p +:+ b -> a = b.
Proof. induction p as [|c p IH]; cbn; [auto|]. intros [= H]. auto. Qed.

Lemma elem_of_prefixed p idx id :
  id ∈ prefixed p idx <-> exists s, s ∈ idx /\ id = IdStr (p +:+ str s).
Proof.
  unfold prefixed. rewrite list_elem_of_In, in_map_iff. split.
  - intros (s & <- & Hs). exists s. split; [now apply list_elem_of_In | reflexivity].
  - intros (s & Hs & ->). exists s. split; [reflexivity | now apply list_elem_of_In].
Qed.

Lemma prefixed_NoDup p idx : NoDup (map str idx) -> NoDup (prefixed p idx).
Proof.
  unfold prefixed. induction idx as [|x idx IH]; cbn [map]; intros H.
  - constructor.
  - apply NoDup_cons in H as [Hx H]. constructor; [|auto].
    intros Hin. apply Hx.
    apply list_elem_of_In, in_map_iff in Hin as (y & E & Hy).
    injection E as E. apply append_inj_r in E.
    apply list_elem_of_In, in_map_iff. now exists y.
Qed.

(** X6: relabelling the arrays of the types [foo] and [bar] with the
    prefixes ["foo-"] and ["bar-"] is accepted (the index keeps one element
    per row), keeps the values, and leaves no identifier shared between the
    two types: the identifiers of the relabelled dictionary are pairwise
    distinct as soon as the identifiers within each array print
    differently. *)
Theorem prefixes_make_identifiers_unique (foo bar : IndexedArray feature) :
  List.length (index foo) = List.length (values foo) ->
  List.length (index bar) = List.length (values bar) ->
  NoDup (map str (index foo)) ->
  NoDup (map str (index bar)) ->
  exists foo' bar',
    with_prefix "foo-" foo = Return foo' /\
    with_prefix "bar-" bar = Return bar' /\
    values foo' = values foo /\ values bar' = values bar /\
    ~ shared_between_types (<["foo" := foo']> (<["bar" := bar']> ∅)) /\
    NoDup (node_ids (<["foo" := foo']> (<["bar" := bar']> ∅))).
Proof.
  intros Lf Lb Nf Nb.
  exists (MkIndexedArray (values foo) (prefixed "foo-" (index foo))),
    (MkIndexedArray (values bar) (prefixed "bar-" (index bar))).
  assert (forall p (a : IndexedArray feature),
            List.length (index a) = List.length (values a) ->
            with_prefix p a = Return (MkIndexedArray (values a) (prefixed p (index a))))
    as W.
  { intros p a L. unfold with_prefix, IndexedArray_init.
    rewrite decide_True; [reflexivity|].
    unfold prefixed. now rewrite length_map. }
  split; [now apply W|]. split; [now apply W|].
  split; [reflexivity|]. split; [reflexivity|].
  assert (~ shared_between_types
            (<["foo" := MkIndexedArray (values foo) (prefixed "foo-" (index foo))]>
               (<["bar" := MkIndexedArray (values bar) (prefixed "bar-" (index bar))]> ∅)))
    as S.
  { intros (t1 & t2 & a1 & a2 & id & Hne & L1 & L2 & I1 & I2).
    apply lookup_insert_Some in L1 as [[<- <-] | [_ L1]];
      apply lookup_insert_Some in L2 as [[<- <-] | [_ L2]];
      try (apply lookup_insert_Some in L1 as [[<- <-] | [_ L1]]);
      try (apply lookup_insert_Some in L2 as [[<- <-] | [_ L2]]);
      try (now rewrite lookup_empty in L1);
      try (now rewrite lookup_empty in L2);
      try (now apply Hne);
      cbn [index] in I1, I2;
      apply elem_of_prefixed in I1 as (s1 & _ & ->);
      apply elem_of_prefixed in I2 as (s2 & _ & E); discriminate E. }
  split; [exact S|].
  apply node_ids_NoDup. split; [|exact S].
  intros t a L.
  apply lookup_insert_Some in L as [[_ <-] | [_ L]];
    [|apply lookup_insert_Some in L as [[_ <-] | [_ L]]];
    [now apply prefixed_NoDup | now apply prefixed_NoDup | now rewrite lookup_empty in L].
Qed.

End RelabelProperties.

Section RelabelWitness.
Import Py Library Relabel LoadingNumpy.

(** Cells 21 to 24 of the notebook: [b] in both types before, no shared
    identifier after. *)
Lemma prefixes_witness :
  exists foo' bar',
    with_prefix "foo-" (MkIndexedArray [[]] [IdStr "b"]) = Return foo' /\
    with_prefix "bar-" (MkIndexedArray bar_features (map IdStr ["b"; "c"; "d"]))
      = Return bar' /\
    values foo' = [[]] /\ values bar' = bar_features /\
    ~ shared_between_types (<["foo" := foo']> (<["bar" := bar']> ∅)) /\
    NoDup (node_ids (<["foo" := foo']> (<["bar" := bar']> ∅))).
Proof.
  apply (prefixes_make_identifiers_unique
           (MkIndexedArray [[]] [IdStr "b"])
           (MkIndexedArray bar_features (map IdStr ["b"; "c"; "d"]))).
  - reflexivity.
  - reflexivity.
  - apply (bool_decide_unpack _). vm_compute. exact I.
  - apply (bool_decide_unpack _). vm_compute. exact I.
Defined.

End RelabelWitness.

(** ** Steps after a failure *)

Section StepProperties.
Import Workflow.

Lemma run_from_status fails i ok ss n s :
  nth_error ss n = Some s ->
  nth_error (run_from fails i ok ss) n
  = Some match cond s with
         | Always => true
         | Success => ok && forallb (fun k => negb (fails k)) (seq i n)
         end.
Proof.
  revert i ok n. induction ss as [|s0 ss IH]; intros i ok [|n] H;
    cbn [nth_error run_from] in *; try discriminate.
  - injection H as ->. cbn. now rewrite andb_true_r.
  - rewrite (IH _ _ _ H). destruct (cond s); [|reflexivity].
    cbn [seq forallb]. f_equal.
    destruct ok, (cond s0), (fails i); reflexivity.
Qed.

(** X7: in every job of the workflow, and whichever steps fail, a step
    runs exactly when no earlier step has failed or when it is an artifact
    upload; so after a failure nothing but the artifact upload runs, the
    coverage upload included. *)
Theorem only_artifact_uploads_survive_a_failure
  (j : job) (fails : nat -> bool) (n : nat) (s : step) :
  In j (jobs ci) ->
  nth_error (steps j) n = Some s ->
  nth_error (run_steps fails j) n
  = Some (is_upload_artifact s || forallb (fun k => negb (fails k)) (seq 0 n)).
Proof.
  intros Hj Hs. unfold run_steps. rewrite (run_from_status _ _ _ _ _ _ Hs).
  f_equal.
  assert (forallb
            (fun j => forallb
               (fun s => Bool.eqb (is_upload_artifact s)
                           match cond s with Always => true | Success => false end)
               (steps j)) (jobs ci) = true) as A by reflexivity.
  rewrite forallb_forall in A. specialize (A j Hj).
  rewrite forallb_forall in A. specialize (A s (nth_error_In _ _ Hs)).
  apply Bool.eqb_prop in A. rewrite A. now destruct (cond s).
Qed.

Lemma artifact_uploads_witness :
  nth_error (run_steps (fun k => Nat.eqb k 4) build) 5 = Some true /\
  nth_error (run_steps (fun k => Nat.eqb k 4) build) 6 = Some false.
Proof.
  split.
  - apply (only_artifact_uploads_survive_a_failure build (fun k => Nat.eqb k 4) 5
             (nth 5 build_steps (Step None None None [] [] Success))).
    + left. reflexivity.
    + reflexivity.
  - apply (only_artifact_uploads_survive_a_failure build (fun k => Nat.eqb k 4) 6
             (nth 6 build_steps (Step None None None [] [] Success))).
    + left. reflexivity.
    + reflexivity.
Defined.

End StepProperties.

(** ** The accuracy of a fold *)

Section GraphClassificationProperties.
Import Py GraphClassification.
Context {history metric : Type}.

Lemma list_index_found x names :
  In x names ->
  exists i, list_index x names = Return i /\ nth_error names i = Some x /\
            forall k, k < i -> nth_error names k <> Some x.
Proof.
  induction names as [|y names IH]; intros H; [destruct H|]. cbn [list_index].
  destruct (String.eqb_spec y x) as [-> | Hne].
  - exists 0. split; [reflexivity|]. split; [reflexivity|]. intros k Hk. lia.
  - destruct H as [-> | H]; [contradiction|].
    destruct (IH H) as (i & -> & Hi & Hmin). exists (S i).
    split; [reflexivity|]. split; [exact Hi|].
    intros [|k] Hk; cbn; [now intros [= ->] | apply Hmin; lia].
Qed.

Lemma list_index_missing x names :
  ~ In x names -> list_index x names = Raise (ValueError ("'" +:+ x +:+ "' is not in list")).
Proof.
  induction names as [|y names IH]; intros H; [reflexivity|]. cbn [list_index].
  destruct (String.eqb_spec y x) as [-> | Hne]; [exfalso; apply H; now left|].
  rewrite IH; [reflexivity|]. intros Hin. apply H. now right.
Qed.

(** X8: once training and evaluation have returned, [train_fold] returns
    the history together with the metric standing at the first position of
    the name [acc]; it raises [ValueError] when no metric is named [acc] and
    [IndexError] when the metrics stop before that position. *)
Theorem train_fold_returns_the_metric_named_acc
  (h : history) (test_metrics : list metric) (metrics_names : list string) :
  (~ In "acc" metrics_names ->
   train_fold (Return h) (Return test_metrics) metrics_names
   = Raise (ValueError "'acc' is not in list")) /\
  (In "acc" metrics_names ->
   exists i,
     nth_error metrics_names i = Some "acc" /\
     (forall k, k < i -> nth_error metrics_names k <> Some "acc") /\
     train_fold (Return h) (Return test_metrics) metrics_names
     = match nth_error test_metrics i with
       | Some acc => Return (h, acc)
       | None => Raise (OtherError "IndexError" "list index out of range")
       end).
Proof.
  unfold train_fold. cbn [bind]. split.
  - intros H. now rewrite (list_index_missing _ _ H).
  - intros H. destruct (list_index_found _ _ H) as (i & E & Hi & Hmin).
    exists i. split; [exact Hi|]. split; [exact Hmin|].
    rewrite E. cbn [bind]. unfold subscript.
    now destruct (nth_error test_metrics i).
Qed.

End GraphClassificationProperties.

Section GraphClassificationWitness.
Import Py GraphClassification.

Lemma train_fold_witness :
  train_fold (Return "history") (Return ["0.52"; "0.76"]) ["loss"]
  = Raise (ValueError "'acc' is not in list") /\
  exists i,
    nth_error ["loss"; "acc"] i = Some "acc" /\
    (forall k, k < i -> nth_error ["loss"; "acc"] k <> Some "acc") /\
    train_fold (Return "history") (Return ["0.52"; "0.76"]) ["loss"; "acc"]
    = match nth_error ["0.52"; "0.76"] i with
      | Some acc => Return ("history", acc)
      | None => Raise (OtherError "IndexError" "list index out of range")
      end.
Proof.
  split.
  - apply (proj1 (train_fold_returns_the_metric_named_acc
                    "history" ["0.52"; "0.76"] ["loss"])).
    intros [H | []]. discriminate H.
  - apply (proj2 (train_fold_returns_the_metric_named_acc
                    "history" ["0.52"; "0.76"] ["loss"; "acc"])).
    right. left. reflexivity.
Defined.

End GraphClassificationWitness.

(** ** What the version check lets through *)

Section VersionCheckProperties.
Import Py VersionCheck.

(** X9: the version-check cell ends in an [AttributeError] exactly when
    the package has no [__version__] and the utility is missing or raises
    an [AttributeError] itself (the handler then fails while it builds its
    message).  With a [__version__], an [AttributeError] from inside the
    utility is reported as a wrong version, like a missing utility; any
    other error of the utility is handed on unchanged. *)
Theorem version_check_and_AttributeError (sg : installation) :
  ((exists msg, version_check sg = Raise (AttributeError msg)) <->
   version sg = None /\
   (validate_notebook_version sg = None \/
    exists validate msg,
      validate_notebook_version sg = Some validate /\
      validate "1.2.1" = Raise (AttributeError msg))) /\
  (forall validate msg v,
     validate_notebook_version sg = Some validate ->
     validate "1.2.1" = Raise (AttributeError msg) ->
     version sg = Some v ->
     version_check sg = Raise (ValueError (message v))) /\
  (forall validate e,
     validate_notebook_version sg = Some validate ->
     validate "1.2.1" = Raise e ->
     (forall msg, e <> AttributeError msg) ->
     version_check sg = Raise e).
Proof.
  unfold version_check, lookup_validate, lookup_version.
  destruct (validate_notebook_version sg) as [validate|];
    cbn [bind except_AttributeError].
  - split; [|split].
    + split.
      * intros (msg & R).
        destruct (validate "1.2.1") as [|[m | m | k m]] eqn:V; cbn in R;
          try discriminate R.
        destruct (version sg); [discriminate R|].
        split; [reflexivity|]. right. now exists validate, m.
      * intros (-> & [[=] | (v & m & [= <-] & ->)]). cbn. eauto.
    + intros v msg ver [= <-] -> ->. reflexivity.
    + intros v e [= <-] -> Hne. destruct e; [|reflexivity|reflexivity].
      now destruct (Hne msg).
  - split; [|split].
    + split.
      * intros (msg & R). destruct (version sg); [discriminate R|].
        split; [reflexivity | now left].
      * intros (-> & _). cbn. eauto.
    + intros v msg ver [=].
    + intros v e [=].
Qed.

Lemma version_check_witness :
  version_check
    (Installation (Some "1.2.1")
       (Some (fun _ => Raise (AttributeError "module has no attribute 'parse'"))))
  = Raise (ValueError (message "1.2.1")).
Proof.
  apply (proj1 (proj2 (version_check_and_AttributeError
           (Installation (Some "1.2.1")
              (Some (fun _ => Raise (AttributeError "module has no attribute 'parse'"))))))
           (fun _ => Raise (AttributeError "module has no attribute 'parse'"))
           "module has no attribute 'parse'" "1.2.1" eq_refl eq_refl eq_refl).
Defined.

End VersionCheckProperties.

(** ** The graphs handed to [from_networkx] *)

Section ArgumentProperties.
Import Notebooks Python Arguments.

(** X10: the NetworkX notebook builds the graphs [g_weighted_other] (edges
    with a [distance] attribute) and [g_foo_other] (a node with a [type]
    attribute) but never hands them to [StellarGraph.from_networkx]: the
    call with [edge_weight_attr] receives [g_weighted] and the call with
    [node_type_attr] receives [g_foo]. *)
Theorem graphs_built_but_never_loaded :
  first_arguments "StellarGraph.from_networkx" loading_networkx
  = [ "g"; "g"; "g_feature_attr"; "g_feature_attr"; "g_weighted"; "g_weighted";
      "g_directed"; "g_foo_bar"; "g_foo"; "g_foo"; "g_foo_bar_attr"; "g_foo_bar";
      "g_orientation"; "g_everything" ] /\
  (forall v, In v ["g_weighted_other"; "g_foo_other"] ->
     In v (assigned_names loading_networkx) /\
     ~ In v (first_arguments "StellarGraph.from_networkx" loading_networkx)) /\
  map (fun args => hd EmptyString args)
    (List.filter
       (fun args =>
          existsb (fun a => match keyword_of a with
                            | Some k => mem k ["edge_weight_attr"; "node_type_attr"]
                            | None => false
                            end) args)
       (flat_map
          (fun c => argument_texts_from "StellarGraph.from_networkx" false
                      (skeleton (source c)))
          (code_cells loading_networkx)))
  = ["g_weighted"; "g_foo"].
Proof.
  split; [vm_compute; reflexivity|]. split; [|vm_compute; reflexivity].
  intros v Hv. split.
  - apply mem_In. apply mem_In in Hv.
    assert (forallb (fun v => mem v (assigned_names loading_networkx))
              ["g_weighted_other"; "g_foo_other"] = true) as A
      by (vm_compute; reflexivity).
    rewrite forallb_forall in A. apply A. now apply mem_In.
  - intros H. apply mem_In in H.
    assert (forallb
              (fun v => negb (mem v (first_arguments "StellarGraph.from_networkx"
                                       loading_networkx)))
              ["g_weighted_other"; "g_foo_other"] = true) as A
      by (vm_compute; reflexivity).
    rewrite forallb_forall in A. specialize (A v Hv). now rewrite H in A.
Qed.

Lemma graphs_never_loaded_witness :
  In "g_weighted_other" (assigned_names loading_networkx) /\
  ~ In "g_weighted_other"
      (first_arguments "StellarGraph.from_networkx" loading_networkx).
Proof.
  apply (proj1 (proj2 graphs_built_but_never_loaded) "g_weighted_other").
  left. reflexivity.
Defined.

End ArgumentProperties.
